(** * Order-book table view: normalisation and synchronisation contract

    Shallow embedding of [pages/table_view.py]: the helpers [parse_date],
    [parse_price] and [normalize_df], the row mask of the "Apply Changes"
    handler, and [save_data] / [load_data] against the remote table
    [order_book].

    Modelling conventions.
    - A DataFrame cell is a Python object ([value]); pandas keeps cells as
      the objects the code puts there, but for the price column of
      [pd.DataFrame(rows)] in [load_data], which is a float column, with NaN
      for null, as soon as one row has a price.
    - Strings are byte strings ([string] of the Standard Library).
    - The Python builtins [float], [str] on floats, and pandas'
      [to_datetime(..., errors="coerce")] are not code of this repository:
      they are the operations of the class [PyRuntime], and what is assumed
      of them is the class [PyRuntimeLaws].
    - The remote store is a list of rows of the fixed schema of
      [order_book]; [save_data] issues requests, the store interprets them. *)

From Stdlib Require Import ZArith List Bool Ascii String Lia Arith.
From Stdlib Require Import NArith DecimalString DecimalN.
Import ListNotations.
Open Scope string_scope.

(** ** Python string operations *)

Module PyStr.

(** [str.isspace] on one ASCII character: TAB, LF, VT, FF, CR, the four
    separators FS GS RS US, and the space. *)
Definition is_space (c : ascii) : bool :=
  let n := nat_of_ascii c in
  (((9 <=? n) && (n <=? 13)) || ((28 <=? n) && (n <=? 32)))%nat.

Fixpoint lstrip (s : string) : string :=
  match s with
  | EmptyString => EmptyString
  | String c r => if is_space c then lstrip r else s
  end.

Fixpoint rstrip (s : string) : string :=
  match s with
  | EmptyString => EmptyString
  | String c r =>
      match rstrip r with
      | EmptyString => if is_space c then EmptyString else String c EmptyString
      | r' => String c r'
      end
  end.

(** [s.strip()] *)
Definition strip (s : string) : string := rstrip (lstrip s).

(** [s.replace(c, "")] for a one-character pattern [c]. *)
Fixpoint remove_char (c : ascii) (s : string) : string :=
  match s with
  | EmptyString => EmptyString
  | String a r =>
      if Ascii.eqb a c then remove_char c r else String a (remove_char c r)
  end.

(** [s in (t1, t2, ...)] *)
Definition str_in (s : string) (l : list string) : bool :=
  existsb (String.eqb s) l.

Fixpoint all_chars (p : ascii -> bool) (s : string) : bool :=
  match s with
  | EmptyString => true
  | String a r => p a && all_chars p r
  end.

End PyStr.

(** ** Calendar dates and timestamps *)

Module Cal.

(** [datetime.date]: year, month, day. *)
Record date := mkDate { year : nat; month : nat; day : nat }.

(** [pandas.Timestamp]: a date and the nanoseconds elapsed in that day. *)
Record timestamp := mkTs { ts_date : date; ts_nanos : N }.

Definition midnight (d : date) : timestamp := mkTs d 0%N.

Definition digit (n : nat) : ascii := ascii_of_nat (48 + n mod 10).

(** ["%02d"] and ["%04d"] *)
Definition pad2 (n : nat) : string :=
  String (digit (n / 10)) (String (digit n) EmptyString).

Definition pad4 (n : nat) : string :=
  String (digit (n / 1000)) (String (digit (n / 100)) (pad2 n)).

(** [d.isoformat()] (and [str(d)]) of a [datetime.date]: YYYY-MM-DD. *)
Definition isoformat (d : date) : string :=
  pad4 (year d) ++ "-" ++ pad2 (month d) ++ "-" ++ pad2 (day d).

(** [n] written with exactly [w] digits. *)
Fixpoint padN (w : nat) (n : N) : string :=
  match w with
  | O => EmptyString
  | S w' =>
      padN w' (n / 10)%N ++ String (digit (N.to_nat (n mod 10)%N)) EmptyString
  end.

(** The text of a [pandas.Timestamp]: the date, the separator [sep],
    HH:MM:SS, and the fraction of the second to six digits, or nine when it
    has nanoseconds. *)
Definition format_timestamp (sep : string) (t : timestamp) : string :=
  let secs := (ts_nanos t / 1000000000)%N in
  let frac := (ts_nanos t mod 1000000000)%N in
  isoformat (ts_date t) ++ sep
  ++ padN 2 (secs / 3600)%N ++ ":" ++ padN 2 ((secs / 60) mod 60)%N
  ++ ":" ++ padN 2 (secs mod 60)%N
  ++ (if (frac =? 0)%N then ""
      else if (frac mod 1000 =? 0)%N then "." ++ padN 6 (frac / 1000)%N
      else "." ++ padN 9 frac).

(** [str(t)] and [t.isoformat()] *)
Definition str_of_timestamp : timestamp -> string := format_timestamp " ".
Definition isoformat_timestamp : timestamp -> string := format_timestamp "T".

Definition date_eqb (a b : date) : bool :=
  Nat.eqb (year a) (year b) && Nat.eqb (month a) (month b)
  && Nat.eqb (day a) (day b).

End Cal.

(** ** Python objects held in DataFrame cells *)

Inductive value (F : Type) : Type :=
| VNone                       (* None *)
| VNA                         (* pandas.NA *)
| VNaT                        (* pandas.NaT *)
| VBool (b : bool)
| VInt (z : Z)
| VFloat (f : F)
| VStr (s : string)
| VDate (d : Cal.date)        (* datetime.date *)
| VTimestamp (t : Cal.timestamp).

Arguments VNone {F}.
Arguments VNA {F}.
Arguments VNaT {F}.
Arguments VBool {F} b.
Arguments VInt {F} z.
Arguments VFloat {F} f.
Arguments VStr {F} s.
Arguments VDate {F} d.
Arguments VTimestamp {F} t.

(** ** The Python and pandas builtins the page relies on *)

(** [pyfloat] is Python's [float]; [float_of_str s] is [float(s)] on a
    string ([None] when it raises [ValueError]); [str_of_float] is [str] on a
    float; [float_of_int] is [float] on an [int]; [float_isnan] is
    [math.isnan]; [to_datetime v] is [pd.to_datetime(v, errors="coerce")],
    [None] standing for the result [NaT]. *)
Class PyRuntime : Type := {
  pyfloat : Type;
  float_of_str : string -> option pyfloat;
  str_of_float : pyfloat -> string;
  float_of_int : Z -> pyfloat;
  float_isnan : pyfloat -> bool;
  to_datetime : value pyfloat -> option Cal.timestamp
}.

(** The characters of the text Python prints for a float. *)
Definition is_repr_char (c : ascii) : bool :=
  let n := nat_of_ascii c in
  (((48 <=? n) && (n <=? 57)) || existsb (Nat.eqb n) [43; 45; 46; 97; 101; 102; 105; 110])%nat.

(** What is assumed of the builtins.
    - [float(str(f))] gives [f] back, and [str(f)] is a non-empty text
      over the digits and [+ - . e i n f a];
    - ["nan"] is the text of the NaN float, and [float] reads it; it does
      not read ["<NA>"];
    - a [date] taken out of a [Timestamp] converts to the midnight of that
      day, and so does its ISO text. *)
Class PyRuntimeLaws (R : PyRuntime) : Prop := {
  float_of_str_of_float : forall f, float_of_str (str_of_float f) = Some f;
  str_of_float_chars :
    forall f, PyStr.all_chars is_repr_char (str_of_float f) = true;
  str_of_float_nonempty : forall f, str_of_float f <> "";
  float_of_str_nan :
    exists n, float_of_str "nan" = Some n /\ float_isnan n = true;
  float_of_str_NA : float_of_str "<NA>" = None;
  to_datetime_of_date :
    forall v t, to_datetime v = Some t ->
      to_datetime (VDate (Cal.ts_date t)) = Some (Cal.midnight (Cal.ts_date t));
  to_datetime_of_iso :
    forall d, to_datetime (VDate d) = Some (Cal.midnight d) ->
      to_datetime (VStr (Cal.isoformat d)) = Some (Cal.midnight d)
}.

(** ** Helpers of the page *)

Section Helpers.

Context {R : PyRuntime}.

Local Abbreviation val := (value pyfloat).

(** [str(x)] *)
Definition py_str (x : val) : string :=
  match x with
  | VNone => "None"
  | VNA => "<NA>"
  | VNaT => "NaT"
  | VBool true => "True"
  | VBool false => "False"
  | VInt z => NilEmpty.string_of_int (Z.to_int z)
  | VFloat f => str_of_float f
  | VStr s => s
  | VDate d => Cal.isoformat d
  | VTimestamp t => Cal.str_of_timestamp t
  end.

(** [pd.isna(x)] on a scalar *)
Definition isna (x : val) : bool :=
  match x with
  | VNone | VNA | VNaT => true
  | VFloat f => float_isnan f
  | _ => false
  end.

Definition is_none (x : val) : bool :=
  match x with VNone => true | _ => false end.

(** [parse_date], lines 91-99.  [pd.isna] does not raise on a scalar, so the
    [try] always runs to its end; [NaT.date()] is [NaT]. *)
Definition parse_date (x : val) : val :=
  if is_none x || PyStr.str_in (PyStr.strip (py_str x)) [""; "None"; "NaT"]
  then VNaT
  else if isna x then VNaT
  else match to_datetime x with
       | Some t => VDate (Cal.ts_date t)
       | None => VNaT
       end.

(** [parse_price], lines 102-109. *)
Definition parse_price (x : val) : val :=
  if is_none x || String.eqb (PyStr.strip (py_str x)) "" then VNA
  else
    let s := PyStr.remove_char "," (PyStr.remove_char "$" (py_str x)) in
    match float_of_str s with
    | Some f => VFloat f
    | None => VNA
    end.

End Helpers.

(** ** A small error monad: [None] is a raised exception *)

Definition bind {A B : Type} (m : option A) (k : A -> option B) : option B :=
  match m with
  | Some a => k a
  | None => None
  end.

Notation "x <- m ;; k" := (bind m (fun x => k))
  (at level 61, m at next level, right associativity).

Fixpoint mapM {A B : Type} (f : A -> option B) (l : list A) : option (list B) :=
  match l with
  | [] => Some []
  | a :: r => b <- f a ;; bs <- mapM f r ;; Some (b :: bs)
  end.

Fixpoint foldM {A B : Type} (f : B -> A -> option B) (l : list A) (b : B)
  : option B :=
  match l with
  | [] => Some b
  | a :: r => b' <- f b a ;; foldM f r b'
  end.

(** ** DataFrames *)

Definition REQUIRED_COLS : list string :=
  [ "WO"; "Quote"; "PO Number"; "Status"; "Customer Name";
    "Model Description"; "Scheduled Date"; "Price" ].

Definition TEXT_COLS : list string :=
  [ "Quote"; "PO Number"; "Status"; "Customer Name"; "Model Description" ].

Section Frames.

Context {R : PyRuntime}.

Local Abbreviation val := (value pyfloat).

(** A DataFrame: its column labels (taken to be distinct) and its rows, each
    row holding one cell per column, in column order. *)
Record DataFrame : Type := mkDF {
  columns : list string;
  rows : list (list val)
}.

Fixpoint col_index (c : string) (cols : list string) : option nat :=
  match cols with
  | [] => None
  | c' :: r => if String.eqb c c' then Some O
               else option_map S (col_index c r)
  end.

Definition has_col (c : string) (df : DataFrame) : bool :=
  match col_index c (columns df) with Some _ => true | None => false end.

(** The cell of row [r] under label [c]; [None] is [KeyError]. *)
Definition row_get (cols : list string) (r : list val) (c : string)
  : option val :=
  i <- col_index c cols ;; nth_error r i.

(** [r.get(c, dflt)] on a row of [iterrows]. *)
Definition row_get_default (cols : list string) (r : list val) (c : string)
  (dflt : val) : val :=
  match row_get cols r c with Some v => v | None => dflt end.

(** Every row has one cell per column. *)
Definition well_formed (df : DataFrame) : bool :=
  forallb (fun r => Nat.eqb (List.length r) (List.length (columns df)))
    (rows df).

(** [df.empty]: some axis has length zero. *)
Definition df_empty (df : DataFrame) : bool :=
  match columns df, rows df with
  | [], _ | _, [] => true
  | _, _ => false
  end.

(** [df[cs]] for a list of labels [cs]: [KeyError] when one is missing. *)
Definition select_cols (cs : list string) (df : DataFrame)
  : option DataFrame :=
  rs <- mapM (fun r => mapM (row_get (columns df) r) cs) (rows df) ;;
  if forallb (fun c => has_col c df) cs
  then Some (mkDF cs rs) else None.

Fixpoint update_at (i : nat) (f : val -> option val) (r : list val)
  : option (list val) :=
  match r, i with
  | [], _ => None
  | x :: t, O => y <- f x ;; Some (y :: t)
  | x :: t, S j => t' <- update_at j f t ;; Some (x :: t')
  end.

(** [df[c] = df[c].apply(f)], cell by cell; [None] when the column is
    missing or [f] raises. *)
Definition map_col (c : string) (f : val -> option val) (df : DataFrame)
  : option DataFrame :=
  i <- col_index c (columns df) ;;
  rs <- mapM (update_at i f) (rows df) ;;
  Some (mkDF (columns df) rs).

(** [astype(str).str.strip()] on one cell. *)
Definition str_strip (x : val) : val := VStr (PyStr.strip (py_str x)).

(** [fillna("").astype(str)] on one cell. *)
Definition fill_str (x : val) : val :=
  if isna x then VStr "" else VStr (py_str x).

Definition pure (f : val -> val) (x : val) : option val := Some (f x).

(** [normalize_df], lines 112-120. *)
Definition normalize_df (df : DataFrame) : option DataFrame :=
  df <- select_cols REQUIRED_COLS df ;;
  df <- map_col "WO" (pure str_strip) df ;;
  df <- map_col "Scheduled Date" (pure parse_date) df ;;
  df <- map_col "Price" (pure parse_price) df ;;
  foldM (fun df c => map_col c (pure fill_str) df) TEXT_COLS df.

(** [s.str.strip().ne("")] on one cell: a cell that is not a string becomes
    NaN under [.str], and NaN differs from [""]. *)
Definition strip_ne_empty (x : val) : bool :=
  match x with
  | VStr s => negb (String.eqb (PyStr.strip s) "")
  | _ => true
  end.

(** The row mask of the Apply handler, lines 163-167. *)
Definition row_mask (cols : list string) (r : list val) : option bool :=
  wo <- row_get cols r "WO" ;;
  cn <- row_get cols r "Customer Name" ;;
  md <- row_get cols r "Model Description" ;;
  Some (strip_ne_empty wo || strip_ne_empty cn || strip_ne_empty md).

Fixpoint filterM (p : list val -> option bool) (l : list (list val))
  : option (list (list val)) :=
  match l with
  | [] => Some []
  | r :: t =>
      b <- p r ;; t' <- filterM p t ;; Some (if b then r :: t' else t')
  end.

(** [df.loc[mask]] with the mask above. *)
Definition loc_mask (df : DataFrame) : option DataFrame :=
  rs <- filterM (row_mask (columns df)) (rows df) ;;
  if has_col "WO" df && has_col "Customer Name" df
     && has_col "Model Description" df
  then Some (mkDF (columns df) rs) else None.

(** The Apply handler, lines 161-170: the table put in the session state. *)
Definition apply_changes (edited : DataFrame) : option DataFrame :=
  df_new <- normalize_df edited ;; loc_mask df_new.

End Frames.

(** ** The remote table [order_book] *)

Definition SUPABASE_TABLE : string := "order_book".

Section Remote.

Context {R : PyRuntime}.

Local Abbreviation val := (value pyfloat).

(** A row as [save_data] sends it (the dict of lines 44-54). *)
Record payload : Type := mkPayload {
  p_wo : string;
  p_quote : string;
  p_po_number : string;
  p_status : string;
  p_customer_name : string;
  p_model_description : string;
  p_scheduled_date : option string;
  p_price : option pyfloat;
  p_uploaded_name : string
}.

(** A row as the store holds it: every column is nullable, [id] is the
    surrogate key the store assigns. *)
Record stored_row : Type := mkStored {
  wo : option string;
  quote : option string;
  po_number : option string;
  status : option string;
  customer_name : option string;
  model_description : option string;
  scheduled_date : option string;
  price : option pyfloat;
  uploaded_name : option string;
  id : Z
}.

(** The store: its rows, in the order they were inserted (the order in
    which [select("*")] is taken to return them), and the next surrogate
    key. *)
Record store : Type := mkStore {
  table : list stored_row;
  next_id : Z
}.

(** The requests the page sends to the store. *)
Inductive request : Type :=
| DeleteNeq (col : string) (v : string)   (* .delete().neq(col, v) *)
| Insert (batch : list payload).          (* .insert(batch) *)

Definition text_column (col : string) (r : stored_row) : option string :=
  if String.eqb col "wo" then wo r
  else if String.eqb col "quote" then quote r
  else if String.eqb col "po_number" then po_number r
  else if String.eqb col "status" then status r
  else if String.eqb col "customer_name" then customer_name r
  else if String.eqb col "model_description" then model_description r
  else if String.eqb col "scheduled_date" then scheduled_date r
  else if String.eqb col "uploaded_name" then uploaded_name r
  else None.

(** The filter [neq(col, v)] is the SQL comparison [col <> v]: it selects a
    row whose [col] holds a text different from [v]; on a null it is
    unknown, and the row is not selected. *)
Definition matches_neq (col v : string) (r : stored_row) : bool :=
  match text_column col r with
  | Some s => negb (String.eqb s v)
  | None => false
  end.

Definition store_row (p : payload) (i : Z) : stored_row :=
  mkStored (Some (p_wo p)) (Some (p_quote p)) (Some (p_po_number p))
    (Some (p_status p)) (Some (p_customer_name p))
    (Some (p_model_description p)) (p_scheduled_date p) (p_price p)
    (Some (p_uploaded_name p)) i.

Fixpoint store_rows (ps : list payload) (i : Z) : list stored_row :=
  match ps with
  | [] => []
  | p :: r => store_row p i :: store_rows r (i + 1)
  end.

Definition exec (s : store) (q : request) : store :=
  match q with
  | DeleteNeq col v =>
      mkStore (filter (fun r => negb (matches_neq col v r)) (table s))
        (next_id s)
  | Insert ps =>
      mkStore (table s ++ store_rows ps (next_id s))
        (next_id s + Z.of_nat (List.length ps))
  end.

Definition exec_all (qs : list request) (s : store) : store :=
  fold_left exec qs s.

End Remote.

(** ** [save_data] and [load_data] *)

Section Sync.

Context {R : PyRuntime}.

Local Abbreviation val := (value pyfloat).

(** [float(x)]; [None] is [TypeError] or [ValueError]. *)
Definition py_float (x : val) : option pyfloat :=
  match x with
  | VFloat f => Some f
  | VInt z => Some (float_of_int z)
  | VBool b => Some (float_of_int (if b then 1 else 0)%Z)
  | VStr s => float_of_str s
  | _ => None
  end.

(** [d.isoformat()]; [None] is [AttributeError]. *)
Definition py_isoformat (d : val) : option string :=
  match d with
  | VDate d => Some (Cal.isoformat d)
  | VTimestamp t => Some (Cal.isoformat_timestamp t)
  | _ => None
  end.

(** [last_uploaded_name or ""] *)
Definition label_or_empty (l : option string) : string :=
  match l with Some s => s | None => "" end.

(** The dict built for one row, lines 42-54. *)
Definition to_payload (cols : list string) (label : option string)
  (r : list val) : option payload :=
  let d := row_get_default cols r "Scheduled Date" VNaT in
  let price := row_get_default cols r "Price" VNone in
  let get c := py_str (row_get_default cols r c (VStr "")) in
  sd <- (if negb (isna d) then option_map Some (py_isoformat d)
         else Some None) ;;
  pr <- (if negb (is_none price) && negb (isna price)
         then option_map Some (py_float price) else Some None) ;;
  Some (mkPayload (PyStr.strip (get "WO")) (get "Quote") (get "PO Number")
          (get "Status") (get "Customer Name") (get "Model Description")
          sd pr (label_or_empty label)).

(** [range(start, stop, step)] for a positive step, by iteration; [stop]
    iterations are enough. *)
Fixpoint range_iter (fuel start stop step : nat) : list nat :=
  match fuel with
  | O => []
  | S k => if (start <? stop)%nat
           then start :: range_iter k (start + step) stop step
           else []
  end.

Definition py_range (start stop step : nat) : list nat :=
  range_iter stop start stop step.

(** [l[i : j]] *)
Definition slice {A : Type} (l : list A) (i j : nat) : list A :=
  firstn (j - i) (skipn i l).

Definition BATCH : nat := 500.

(** The batches of the loop of lines 56-57. *)
Definition batches (ps : list payload) : list (list payload) :=
  map (fun i => slice ps i (i + BATCH)) (py_range 0 (List.length ps) BATCH).

Inductive outcome : Type := Returned | Raised.

(** [save_data], lines 32-57: the requests sent, in order, and how the call
    ends. *)
Definition save_data (df : DataFrame) (last_uploaded_name : option string)
  : list request * outcome :=
  let del := DeleteNeq "wo" "___never___" in
  if df_empty df then ([del], Returned)
  else match mapM (to_payload (columns df) last_uploaded_name) (rows df) with
       | None => ([del], Raised)
       | Some ps => (del :: map Insert (batches ps), Returned)
       end.

(** The store after [save_data]. *)
Definition run_save (df : DataFrame) (last_uploaded_name : option string)
  (s : store) : store :=
  exec_all (fst (save_data df last_uploaded_name)) s.

Definition opt_str (o : option string) : val :=
  match o with Some s => VStr s | None => VNone end.

Definition STORE_COLS : list string :=
  [ "wo"; "quote"; "po_number"; "status"; "customer_name";
    "model_description"; "scheduled_date"; "price"; "uploaded_name"; "id" ].

(** NaN as pandas writes it in a float column: the float that
    [float("nan")] reads.  (Were there no such float, the cell would stay
    [None].) *)
Definition nan_cell : val :=
  match float_of_str "nan" with Some n => VFloat n | None => VNone end.

(** Some row of the response has a price. *)
Definition has_price (rs : list stored_row) : bool :=
  existsb (fun r => match price r with Some _ => true | None => false end) rs.

(** A price of the response as a cell of [pd.DataFrame(rows)]: a column in
    which some row has a number is a float column, where null is NaN; a column
    of nulls only keeps them as [None]. *)
Definition price_cell (numeric : bool) (p : option pyfloat) : val :=
  match p with
  | Some f => VFloat f
  | None => if numeric then nan_cell else VNone
  end.

(** [pd.DataFrame(rows)] on the rows of the response.  The text columns
    and the date column hold texts and nulls as they are; the price column
    is inferred as said above. *)
Definition frame_of_rows (rs : list stored_row) : DataFrame :=
  mkDF STORE_COLS
    (map (fun r =>
            [ opt_str (wo r); opt_str (quote r); opt_str (po_number r);
              opt_str (status r); opt_str (customer_name r);
              opt_str (model_description r); opt_str (scheduled_date r);
              price_cell (has_price rs) (price r);
              opt_str (uploaded_name r); VInt (id r) ]) rs).

Definition RENAME : list (string * string) :=
  [ ("wo", "WO"); ("quote", "Quote"); ("po_number", "PO Number");
    ("status", "Status"); ("customer_name", "Customer Name");
    ("model_description", "Model Description");
    ("scheduled_date", "Scheduled Date"); ("price", "Price") ].

Fixpoint assoc (k : string) (m : list (string * string)) : option string :=
  match m with
  | [] => None
  | (a, b) :: r => if String.eqb k a then Some b else assoc k r
  end.

(** [df.rename(columns=m)] *)
Definition rename (m : list (string * string)) (df : DataFrame) : DataFrame :=
  mkDF (map (fun c => match assoc c m with Some c' => c' | None => c end)
          (columns df))
       (rows df).

Fixpoint remove_at {A : Type} (i : nat) (l : list A) : list A :=
  match l, i with
  | [], _ => []
  | _ :: t, O => t
  | x :: t, S j => x :: remove_at j t
  end.

(** [df.drop(columns=[c])] for a label that is present. *)
Definition drop_col (df : DataFrame) (c : string) : DataFrame :=
  match col_index c (columns df) with
  | Some i => mkDF (remove_at i (columns df)) (map (remove_at i) (rows df))
  | None => df
  end.

(** The lambda of line 81. *)
Definition load_price (x : val) : option val :=
  if negb (is_none x) then option_map (fun f => VFloat f) (py_float x)
  else Some VNA.

(** Lines 69-86 of [load_data]: the table and the label made out of the
    rows of a response that has some. *)
Definition load_rows (rs : list stored_row) : option (DataFrame * val) :=
  let df := frame_of_rows rs in
  last_name <-
    (if has_col "uploaded_name" df
     then r0 <- hd_error (rows df) ;;
          row_get (columns df) r0 "uploaded_name"
     else Some VNone) ;;
  let df := rename RENAME df in
  let df := fold_left drop_col
              (filter (fun c => has_col c df) ["uploaded_name"; "id"]) df in
  df <- map_col "Scheduled Date" (pure parse_date) df ;;
  df <- map_col "Price" load_price df ;;
  df <- foldM (fun df c => map_col c (pure fill_str) df) TEXT_COLS df ;;
  let present := filter (fun c => has_col c df) REQUIRED_COLS in
  df <- select_cols present df ;;
  Some (df, last_name).

(** [load_data], lines 60-86: all the rows are fetched; without rows the
    result is the empty canonical table and no label. *)
Definition load_data (s : store) : option (DataFrame * val) :=
  match table s with
  | [] => Some (mkDF REQUIRED_COLS [], VNone)
  | _ :: _ => load_rows (table s)
  end.

End Sync.

(** ** A small runtime

    An executable runtime on which the page can be run: floats with two
    decimals (and NaN and the infinities), printed with both decimals, and a
    [to_datetime] that reads [date]s, [Timestamp]s and ISO YYYY-MM-DD texts
    within the years pandas covers.  It stands for Python's [float] and
    pandas' [to_datetime] on the inputs it accepts. *)

Module SmallRuntime.

Inductive cfloat : Type :=
| CNan
| CInf (neg : bool)
| CFin (neg : bool) (cents : N).

Definition sign_text (neg : bool) : string := if neg then "-" else "".

Definition str_of_cfloat (f : cfloat) : string :=
  match f with
  | CNan => "nan"
  | CInf neg => sign_text neg ++ "inf"
  | CFin neg c =>
      sign_text neg ++ NilZero.string_of_uint (N.to_uint (c / 100))
      ++ String "." (Cal.padN 2 (c mod 100))
  end.

Definition digit_val (c : ascii) : option N :=
  let n := N_of_ascii c in
  if ((48 <=? n) && (n <=? 57))%N then Some (n - 48)%N else None.

Definition is_digit (c : ascii) : bool :=
  match digit_val c with Some _ => true | None => false end.

(** The text before the first [c], and the text after it if there is one. *)
Fixpoint split_at (c : ascii) (s : string) : string * option string :=
  match s with
  | EmptyString => (EmptyString, None)
  | String a r =>
      if Ascii.eqb a c then (EmptyString, Some r)
      else let (x, y) := split_at c r in (String a x, y)
  end.

(** Hundredths written by the digits after the point: none, one or two. *)
Definition read_fraction (s : option string) : option N :=
  match s with
  | None => Some 0%N
  | Some (String a EmptyString) =>
      option_map (fun x => (10 * x)%N) (digit_val a)
  | Some (String a (String b EmptyString)) =>
      x <- digit_val a ;; y <- digit_val b ;; Some (10 * x + y)%N
  | Some _ => None
  end.

Definition read_unsigned (s : string) : option N :=
  let (ip, fp) := split_at "." s in
  u <- NilZero.uint_of_string ip ;;
  h <- read_fraction fp ;;
  Some (N.of_uint u * 100 + h)%N.

Definition cfloat_of_str (s : string) : option cfloat :=
  if String.eqb s "nan" then Some CNan
  else if String.eqb s "inf" then Some (CInf false)
  else if String.eqb s "-inf" then Some (CInf true)
  else match s with
       | String "-" r => option_map (CFin true) (read_unsigned r)
       | _ => option_map (CFin false) (read_unsigned s)
       end.

Definition cfloat_of_int (z : Z) : cfloat :=
  CFin (z <? 0)%Z (Z.abs_N z * 100).

Definition cfloat_isnan (f : cfloat) : bool :=
  match f with CNan => true | _ => false end.

(** The dates this runtime converts: a day of a month of a year that
    nanosecond timestamps cover whole. *)
Definition valid_date (d : Cal.date) : bool :=
  ((1678 <=? Cal.year d) && (Cal.year d <=? 2261)
   && (1 <=? Cal.month d) && (Cal.month d <=? 12)
   && (1 <=? Cal.day d) && (Cal.day d <=? 31))%nat.

Definition digit_nat (c : ascii) : option nat :=
  option_map N.to_nat (digit_val c).

Fixpoint read_digits (s : string) (acc : nat) : option nat :=
  match s with
  | EmptyString => Some acc
  | String a r => x <- digit_nat a ;; read_digits r (10 * acc + x)
  end.

(** YYYY-MM-DD *)
Definition read_iso_date (s : string) : option Cal.date :=
  if negb (Nat.eqb (String.length s) 10) then None
  else if negb (String.eqb (substring 4 1 s) "-"
                && String.eqb (substring 7 1 s) "-") then None
  else
    y <- read_digits (substring 0 4 s) 0 ;;
    m <- read_digits (substring 5 2 s) 0 ;;
    d <- read_digits (substring 8 2 s) 0 ;;
    Some (Cal.mkDate y m d).

Definition small_to_datetime (v : value cfloat) : option Cal.timestamp :=
  match v with
  | VDate d => if valid_date d then Some (Cal.midnight d) else None
  | VTimestamp t => if valid_date (Cal.ts_date t) then Some t else None
  | VStr s =>
      d <- read_iso_date s ;;
      if valid_date d then Some (Cal.midnight d) else None
  | _ => None
  end.

#[export] Instance runtime : PyRuntime := {|
  pyfloat := cfloat;
  float_of_str := cfloat_of_str;
  str_of_float := str_of_cfloat;
  float_of_int := cfloat_of_int;
  float_isnan := cfloat_isnan;
  to_datetime := small_to_datetime
|}.

End SmallRuntime.

(** ** Sample tables and stores, on the small runtime *)

Module Samples.
Import SmallRuntime.

(** A table as the grid widget returns it: an extra column, untrimmed and
    missing cells, a blank row. *)
Definition edited_table : DataFrame :=
  mkDF ("Notes" :: REQUIRED_COLS)
    [ [VStr "n1"; VStr "  W-100  "; VNone; VStr "PO-7"; VStr "open";
       VStr "Acme"; VStr "pump"; VStr "2024-01-15"; VStr "$1,234.50"];
      [VStr "n2"; VStr "   "; VStr "Q-2"; VNone; VStr "hold";
       VNone; VStr " "; VStr "not-a-date"; VStr "garbage"];
      [VStr "n3"; VInt 42; VNone; VNone; VNone;
       VStr ""; VStr "valve"; VDate (Cal.mkDate 2024 2 29); VInt 5] ].

(** A normalised table. *)
Definition clean_table : DataFrame :=
  mkDF REQUIRED_COLS
    [ [VStr "W-100"; VStr ""; VStr "PO-7"; VStr "open"; VStr "Acme";
       VStr "pump"; VDate (Cal.mkDate 2024 1 15); VFloat (CFin false 123450)];
      [VStr "42"; VStr ""; VStr ""; VStr ""; VStr ""; VStr "valve";
       VNaT; VNA] ].

(** A normalised table with a number and a NaN in its Price column. *)
Definition settled_table : DataFrame :=
  mkDF REQUIRED_COLS
    [ [VStr "W-100"; VStr ""; VStr "PO-7"; VStr "open"; VStr "Acme";
       VStr "pump"; VDate (Cal.mkDate 2024 1 15); VFloat (CFin false 123450)];
      [VStr "42"; VStr ""; VStr ""; VStr ""; VStr ""; VStr "valve";
       VNaT; VFloat CNan] ].

(** A normalised table with a NaN price. *)
Definition nan_table : DataFrame :=
  mkDF REQUIRED_COLS
    [ [VStr "W-100"; VStr ""; VStr "PO-7"; VStr "open"; VStr "Acme";
       VStr "pump"; VNaT; VFloat CNan] ].

(** The same table as [load_data] returns it after [save_data]. *)
Definition nan_table_loaded : DataFrame :=
  mkDF REQUIRED_COLS
    [ [VStr "W-100"; VStr ""; VStr "PO-7"; VStr "open"; VStr "Acme";
       VStr "pump"; VNaT; VNA] ].

(** A store left by an earlier save. *)
Definition old_store : store :=
  mkStore
    [ mkStored (Some "W-001") (Some "") (Some "") (Some "done")
        (Some "Initech") (Some "fan") (Some "2023-12-01")
        (Some (CFin false 9900)) (Some "old.xlsx") 1 ] 2.

(** A table of 1001 equal rows. *)
Definition long_table : DataFrame :=
  mkDF REQUIRED_COLS
    (repeat [VStr "W-100"; VStr ""; VStr "PO-7"; VStr "open"; VStr "Acme";
             VStr "pump"; VDate (Cal.mkDate 2024 1 15);
             VFloat (CFin false 123450)] 1001).

Definition long_payload : payload :=
  mkPayload "W-100" "" "PO-7" "open" "Acme" "pump" (Some "2024-01-15")
    (Some (CFin false 123450)) "book.xlsx".

End Samples.

(** ** The helpers as the specification words them *)

Section Reference.

Context {R : PyRuntime}.

Local Abbreviation val := (value pyfloat).

(** "Blank after trimming": made of whitespace only. *)
Definition blank (s : string) : bool := PyStr.all_chars PyStr.is_space s.

(** "Strips [$] and [,] characters": one pass that keeps the others. *)
Definition strip_money (s : string) : string :=
  string_of_list_ascii
    (filter (fun c => negb (Ascii.eqb c "$" || Ascii.eqb c ","))
       (list_ascii_of_string s)).

(** [parsePrice]: null or a blank text is the null sentinel; otherwise the
    text without [$] and [,] is read as a float, and what cannot be read is
    the null sentinel. *)
Definition parsePrice_ref (x : val) : val :=
  match x with
  | VNone => VNA
  | _ =>
      if blank (py_str x) then VNA
      else match float_of_str (strip_money (py_str x)) with
           | Some f => VFloat f
           | None => VNA
           end
  end.

(** The lenient parser, cut to the date. *)
Definition lenient_date (x : val) : val :=
  match to_datetime x with
  | Some t => VDate (Cal.ts_date t)
  | None => VNaT
  end.

(** [parseDate]: null, the empty text, the text "None" and the text "NaT"
    are the null sentinel; anything else goes to the lenient parser. *)
Definition parseDate_ref (x : val) : val :=
  match x with
  | VNone => VNaT
  | VStr s =>
      if String.eqb s "" || String.eqb s "None" || String.eqb s "NaT"
      then VNaT else lenient_date x
  | _ => lenient_date x
  end.

(** The texts [parse_date] does not hand to the parser. *)
Definition missing_text (s : string) : bool :=
  PyStr.str_in (PyStr.strip s) [""; "None"; "NaT"].

(** What [parseDate]'s wording takes for granted of the lenient parser: it
    reads no date out of a missing value or a missing text. *)
Definition lenient_on_missing : Prop :=
  forall x : val,
    missing_text (py_str x) = true \/ isna x = true -> to_datetime x = None.

End Reference.

(** ** Row-wise readings *)

Section Rowwise.

Context {R : PyRuntime}.

Local Abbreviation val := (value pyfloat).

(** What [normalize_df] makes of a row of the eight canonical cells. *)
Definition norm_row (r : list val) : list val :=
  match r with
  | [w; q; po; st; cn; md; sd; pr] =>
      [ str_strip w; fill_str q; fill_str po; fill_str st; fill_str cn;
        fill_str md; parse_date sd; parse_price pr ]
  | _ => r
  end.

(** The text [normalize_df] stores for a text cell other than WO. *)
Definition field_text (x : val) : string :=
  if isna x then "" else py_str x.

(** A row of the eight canonical cells whose WO, Customer Name and Model
    Description are all blank after trimming. *)
Definition blank_row (r : list val) : bool :=
  match r with
  | [w; _; _; _; cn; md; _; _] =>
      blank (py_str w) && blank (field_text cn) && blank (field_text md)
  | _ => false
  end.

(** The row mask of the Apply handler on a row of the eight canonical
    cells. *)
Definition keep_row (r : list val) : bool :=
  match r with
  | [w; _; _; _; cn; md; _; _] =>
      strip_ne_empty w || strip_ne_empty cn || strip_ne_empty md
  | _ => false
  end.

Definition rows_of_width (n : nat) (rs : list (list val)) : Prop :=
  Forall (fun r => List.length r = n) rs.

(** A frame whose rows have one cell per column, with the canonical columns
    among its columns: what the page hands to [normalize_df]. *)
Definition editable (df : DataFrame) : Prop :=
  well_formed df = true /\
  forallb (fun c => has_col c df) REQUIRED_COLS = true.

(** Total update of the cell at position [i]. *)
Fixpoint upd (i : nat) (f : val -> val) (r : list val) : list val :=
  match r, i with
  | [], _ => []
  | x :: t, O => f x :: t
  | x :: t, S j => x :: upd j f t
  end.

(** The rows the filter of [save_data]'s delete selects. *)
Definition deleted_by_save (r : stored_row) : bool :=
  matches_neq "wo" "___never___" r.

Definition price_is_nan (x : val) : bool :=
  match x with VFloat f => float_isnan f | _ => false end.

(** A Price cell that holds a number: a float that is not NaN. *)
Definition price_is_number (x : val) : bool :=
  match x with VFloat f => negb (float_isnan f) | _ => false end.

(** Some Price cell of the frame holds a number. *)
Definition has_number (df : DataFrame) : bool :=
  existsb (fun r => price_is_number
                      (row_get_default (columns df) r "Price" VNone))
    (rows df).

(** The missing prices of the frame are written the way [load_data]
    returns them: as NaN when some row has a number, not as NaN when none
    has. *)
Definition missing_prices_settled (df : DataFrame) : bool :=
  forallb (fun r =>
             let x := row_get_default (columns df) r "Price" VNone in
             price_is_number x
             || (if has_number df then price_is_nan x
                 else negb (price_is_nan x)))
    (rows df).

(** There is one NaN float. *)
Definition nan_unique : Prop :=
  forall f g : pyfloat,
    float_isnan f = true -> float_isnan g = true -> f = g.

(** The label [load_data] reports after [save_data] of [df] under
    [label]. *)
Definition saved_label (df : DataFrame) (label : option string) : val :=
  match rows df with
  | [] => VNone
  | _ :: _ => VStr (label_or_empty label)
  end.

(** The cells of a stored row under the eight canonical labels, before
    [load_data] coerces them. *)
Definition store_cells (numeric : bool) (r : stored_row) : list val :=
  [ opt_str (wo r); opt_str (quote r); opt_str (po_number r);
    opt_str (status r); opt_str (customer_name r);
    opt_str (model_description r); opt_str (scheduled_date r);
    price_cell numeric (price r) ].

(** A null price as [load_data] returns it: NaN in a response where some
    row has a price (the lambda of line 81 is given NaN, not [None]), NA in
    a response of nulls only. *)
Definition loaded_missing (numeric : bool) : val :=
  if numeric
  then match float_of_str "nan" with Some n => VFloat n | None => VNA end
  else VNA.

(** What [load_data] makes of a stored row, in a response where some row
    has a price ([numeric]) or none has. *)
Definition load_row (numeric : bool) (r : stored_row) : list val :=
  [ opt_str (wo r); fill_str (opt_str (quote r));
    fill_str (opt_str (po_number r)); fill_str (opt_str (status r));
    fill_str (opt_str (customer_name r));
    fill_str (opt_str (model_description r));
    parse_date (opt_str (scheduled_date r));
    match price r with Some f => VFloat f | None => loaded_missing numeric end ].

(** The rows [load_data] makes of a response. *)
Definition loaded_rows (rs : list stored_row) : list (list val) :=
  map (load_row (has_price rs)) rs.

(** A stored row whose key is the text the delete of [save_data] compares
    with, and one whose key is null. *)
Definition sentinel_row : stored_row :=
  mkStored (Some "___never___") (Some "") (Some "") (Some "") (Some "Acme")
    (Some "") None None (Some "book.xlsx") 1.

Definition null_key_row : stored_row :=
  mkStored None (Some "Q7") None (Some "open") (Some "Acme") (Some "pump")
    None None (Some "book.xlsx") 2.

(** The table of one order whose WO a user typed as that text. *)
Definition sentinel_table : DataFrame :=
  mkDF REQUIRED_COLS
    [[VStr "___never___"; VStr ""; VStr ""; VStr ""; VStr "Acme"; VStr "";
      VNaT; VNA]].

End Rowwise.

(** ** The page: session state, the Apply handler, the password gate *)

Section Page.

Context {R : PyRuntime}.

Local Abbreviation val := (value pyfloat).

(** The cells [save_data] can map: a Scheduled Date that is missing or has
    an [isoformat], a Price that is missing or that [float] reads. *)
Definition date_savable (d : val) : bool :=
  isna d || match py_isoformat d with Some _ => true | None => false end.

Definition price_savable (p : val) : bool :=
  is_none p || isna p
  || match py_float p with Some _ => true | None => false end.

Definition row_savable (cols : list string) (r : list val) : bool :=
  date_savable (row_get_default cols r "Scheduled Date" VNaT)
  && price_savable (row_get_default cols r "Price" VNone).

Definition savable (df : DataFrame) : bool :=
  forallb (row_savable (columns df)) (rows df).

(** [st.session_state]: each key is there or not. *)
Record session_state : Type := mkSession {
  ss_df : option DataFrame;
  ss_last_uploaded_name : option (option string);
  ss_df_version : option Z;
  ss_has_unsaved_changes : option bool
}.

Definition fresh_session : session_state := mkSession None None None None.

(** The label as the session keeps it: [None] or a [str], the values
    [load_data] returns. *)
Definition label_of (v : val) : option string :=
  match v with VStr s => Some s | _ => None end.

Definition or_default {A : Type} (o : option A) (d : A) : option A :=
  match o with Some a => Some a | None => Some d end.

(** Session init, lines 124-134; [None] when [load_data] raises. *)
Definition session_init (ss : session_state) (s : store)
  : option session_state :=
  ss1 <- match ss_df ss with
         | Some _ => Some ss
         | None =>
             r <- load_data s ;;
             Some (mkSession (Some (fst r)) (Some (label_of (snd r)))
                     (ss_df_version ss) (ss_has_unsaved_changes ss))
         end ;;
  Some (mkSession (ss_df ss1)
          (or_default (ss_last_uploaded_name ss1) None)
          (or_default (ss_df_version ss1) 0%Z)
          (or_default (ss_has_unsaved_changes ss1) false)).

(** The messages the page shows. *)
Inductive message : Type :=
| InfoLoaded (name : string)   (* st.info: Currently loaded: name *)
| WarnNoData                   (* st.warning: No data loaded *)
| WarnUnsaved                  (* st.warning: You have unsaved changes *)
| SuccessApplied               (* st.success: Changes applied *)
| SuccessSaved                 (* st.success: Changes saved to database *)
| ErrorPassword.               (* st.error: Incorrect password *)

(** What the user did in one run of the script: the table the grid returns,
    the two buttons, the password typed. *)
Record widgets : Type := mkWidgets {
  edited : DataFrame;
  apply : bool;
  password : string;
  update_btn : bool
}.

(** How a run of the script ends: at its last line or at [st.rerun()], with
    the session state, the store and the messages shown; or on an
    exception, the store being as the run left it. *)
Inductive run_result : Type :=
| Completed (ss : session_state) (s : store) (msgs : list message)
    (rerun : bool)
| Crashed (s : store).

(** [st.secrets.get("UPDATE_PASSWORD", "admin123")] *)
Definition correct_password (secret : option string) : string :=
  match secret with Some p => p | None => "admin123" end.

(** The banners of lines 141-147. *)
Definition banners (last : option string) (unsaved : bool) : list message :=
  (match last with
   | Some (String c r) => [InfoLoaded (String c r)]
   | _ => [WarnNoData]
   end ++ if unsaved then [WarnUnsaved] else [])%list.

(** One run of the script, lines 123-199. *)
Definition page_run (secret : option string) (w : widgets)
  (ss : session_state) (s : store) : run_result :=
  match session_init ss s with
  | Some (mkSession (Some df) (Some last) (Some version) (Some unsaved)) =>
      let msgs := banners last unsaved in
      if apply w then
        match apply_changes (edited w) with
        | Some df_new =>
            Completed (mkSession (Some df_new) (Some last)
                         (Some (version + 1)%Z) (Some true))
              s (msgs ++ [SuccessApplied]) true
        | None => Crashed s
        end
      else if update_btn w then
        if String.eqb (password w) (correct_password secret) then
          match save_data df last with
          | (qs, Returned) =>
              Completed (mkSession (Some df) (Some last) (Some version)
                           (Some false))
                (exec_all qs s) (msgs ++ [SuccessSaved]) true
          | (qs, Raised) => Crashed (exec_all qs s)
          end
        else
          Completed (mkSession (Some df) (Some last) (Some version)
                       (Some unsaved))
            s (msgs ++ [ErrorPassword]) false
      else
        Completed (mkSession (Some df) (Some last) (Some version)
                     (Some unsaved))
          s msgs false
  | _ => Crashed s
  end.

(** No row of the frame is keyed, once trimmed, by the text the delete of
    [save_data] compares with. *)
Definition sentinel_free (df : DataFrame) : bool :=
  forallb (fun r =>
             negb (String.eqb
                     (PyStr.strip
                        (py_str (row_get_default (columns df) r "WO"
                                   (VStr ""))))
                     "___never___"))
    (rows df).

(** Every row of the store is one the delete of [save_data] selects. *)
Definition deletable (s : store) : Prop :=
  forall r, In r (table s) -> deleted_by_save r = true.

(** A canonical row as it comes back from the store: a price that is not
    a number (NaN or NA) is written as null, and read as [load_data] reads
    the nulls of that response. *)
Definition reload_price (numeric : bool) (x : val) : val :=
  if price_is_number x then x else loaded_missing numeric.

Definition reload_row (numeric : bool) (r : list val) : list val :=
  upd 7 (reload_price numeric) r.

(** A canonical table as it comes back from the store. *)
Definition reloaded (T : DataFrame) : DataFrame :=
  mkDF REQUIRED_COLS (map (reload_row (has_number T)) (rows T)).

(** A session state that has its four keys. *)
Definition full (df : DataFrame) (last : option string) (v : Z) (u : bool)
  : session_state :=
  mkSession (Some df) (Some last) (Some v) (Some u).

(** The store a run leaves. *)
Definition store_after (r : run_result) : store :=
  match r with Completed _ s _ _ => s | Crashed s => s end.

(** A series of runs, each on the state the one before left; it stops at
    the first crash. *)
Fixpoint page_runs (secret : option string) (ws : list widgets)
  (ss : session_state) (s : store) : run_result :=
  match ws with
  | [] => Completed ss s [] false
  | w :: rest =>
      match page_run secret w ss s with
      | Completed ss' s' _ _ => page_runs secret rest ss' s'
      | Crashed s' => Crashed s'
      end
  end.

End Page.

(** ** More sample tables, stores and runs, on the small runtime *)

Module MoreSamples.
Import SmallRuntime Samples.

(** A table without the Price column. *)
Definition no_price_table : DataFrame :=
  mkDF [ "WO"; "Quote"; "PO Number"; "Status"; "Customer Name";
         "Model Description"; "Scheduled Date" ]
    [ [VStr "W-100"; VStr ""; VStr "PO-7"; VStr "open"; VStr "Acme";
       VStr "pump"; VNaT] ].

(** A canonical table whose date cell is a text: [save_data] cannot map
    it. *)
Definition text_date_table : DataFrame :=
  mkDF REQUIRED_COLS
    [ [VStr "W-100"; VStr ""; VStr "PO-7"; VStr "open"; VStr "Acme";
       VStr "pump"; VStr "2024-01-15"; VNA] ].

(** A table from the grid with a new row left empty. *)
Definition empty_row_table : DataFrame :=
  mkDF REQUIRED_COLS
    [ [VStr "W-100"; VStr ""; VStr "PO-7"; VStr "open"; VStr "Acme";
       VStr "pump"; VNaT; VNA];
      [VNone; VNone; VNone; VNone; VNone; VNone; VNone; VNone] ].

Definition frame_or_empty (o : option DataFrame) : DataFrame :=
  match o with Some df => df | None => mkDF [] [] end.

(** [edited_table] after [normalize_df], and after the Apply handler. *)
Definition edited_normalized : DataFrame :=
  Eval lazy in frame_or_empty (normalize_df edited_table).

Definition edited_applied : DataFrame :=
  Eval lazy in frame_or_empty (apply_changes edited_table).

(** What [load_data] returns on [old_store]. *)
Definition old_loaded : DataFrame :=
  Eval lazy in
    frame_or_empty (option_map fst (load_data old_store)).

(** The store that holds the row keyed by the compared text. *)
Definition sentinel_store : store := mkStore [sentinel_row] 2.

(** Apply on the edited table, Update with the right password, Update with
    a wrong one. *)
Definition press_apply : widgets := mkWidgets edited_table true "" false.

Definition press_update (pw : string) : widgets :=
  mkWidgets edited_applied false pw true.

End MoreSamples.

(** * Properties *)

(** ** Strings *)

Module PyStrFacts.
Import PyStr.

Lemma lstrip_not_space (c : ascii) (s : string) :
  is_space c = false -> lstrip (String c s) = String c s.
Proof. intros H. simpl. rewrite H. reflexivity. Qed.

(** [lstrip] leaves nothing or a text that starts with a visible character. *)
Lemma lstrip_head (s : string) :
  lstrip s = "" \/ exists c r, lstrip s = String c r /\ is_space c = false.
Proof.
  induction s as [|c r IH]; simpl.
  - left; reflexivity.
  - destruct (is_space c) eqn:E.
    + exact IH.
    + right. exists c, r. split; [reflexivity | exact E].
Qed.

Lemma rstrip_head (c : ascii) (s : string) :
  is_space c = false -> exists r, rstrip (String c s) = String c r.
Proof.
  intros H. simpl. destruct (rstrip s).
  - rewrite H. eexists; reflexivity.
  - eexists; reflexivity.
Qed.

Lemma rstrip_cons (c : ascii) (r : string) :
  rstrip (String c r) =
  match rstrip r with
  | EmptyString => if is_space c then EmptyString else String c EmptyString
  | r' => String c r'
  end.
Proof. reflexivity. Qed.

Lemma rstrip_idem (s : string) : rstrip (rstrip s) = rstrip s.
Proof.
  induction s as [|c r IH]; [reflexivity|].
  rewrite rstrip_cons.
  destruct (rstrip r) as [|c' r'] eqn:E.
  - destruct (is_space c) eqn:Ec; [reflexivity|].
    rewrite rstrip_cons. simpl. rewrite Ec. reflexivity.
  - rewrite rstrip_cons, IH. reflexivity.
Qed.

Lemma lstrip_idem (s : string) : lstrip (lstrip s) = lstrip s.
Proof.
  destruct (lstrip_head s) as [H | (c & r & H & Hc)]; rewrite H.
  - reflexivity.
  - apply lstrip_not_space, Hc.
Qed.

(** [strip] is idempotent. *)
Lemma strip_idem (s : string) : strip (strip s) = strip s.
Proof.
  unfold strip.
  destruct (lstrip_head s) as [H | (c & r & H & Hc)]; rewrite H.
  - reflexivity.
  - destruct (rstrip_head c r Hc) as [r' Hr]. rewrite Hr.
    rewrite lstrip_not_space by exact Hc.
    rewrite <- Hr. apply rstrip_idem.
Qed.

Lemma rstrip_blank (s : string) :
  rstrip s = "" <-> all_chars is_space s = true.
Proof.
  induction s as [|c r IH]; simpl.
  - split; reflexivity.
  - destruct (rstrip r) as [|c' r'] eqn:E.
    + destruct (is_space c); simpl.
      * split; intros _; [apply IH; reflexivity | reflexivity].
      * split; discriminate.
    + split; [discriminate|]. intros H.
      apply andb_true_iff in H. destruct H as [_ H].
      apply IH in H. discriminate.
Qed.

Lemma lstrip_all_space (s : string) :
  all_chars is_space s = true -> lstrip s = "".
Proof.
  induction s as [|c r IH]; simpl; [reflexivity|].
  destruct (is_space c); simpl; [exact IH | discriminate].
Qed.

Lemma all_space_lstrip (s : string) :
  all_chars is_space (lstrip s) = all_chars is_space s.
Proof.
  induction s as [|c r IH]; simpl; [reflexivity|].
  destruct (is_space c) eqn:E; simpl; [exact IH | rewrite E; reflexivity].
Qed.

(** A text is blank after trimming exactly when it is made of whitespace. *)
Lemma strip_blank (s : string) :
  strip s = "" <-> all_chars is_space s = true.
Proof.
  unfold strip. rewrite rstrip_blank. rewrite all_space_lstrip. tauto.
Qed.

Lemma strip_eqb_blank (s : string) :
  String.eqb (strip s) "" = all_chars is_space s.
Proof.
  destruct (all_chars is_space s) eqn:E.
  - apply strip_blank in E. rewrite E. reflexivity.
  - apply String.eqb_neq. intros H. apply strip_blank in H. congruence.
Qed.

(** A non-empty text without whitespace is its own trimming. *)
Lemma rstrip_no_space (s : string) :
  all_chars (fun c => negb (is_space c)) s = true -> rstrip s = s.
Proof.
  induction s as [|c r IH]; simpl; [reflexivity|].
  intros H. apply andb_true_iff in H. destruct H as [Hc Hr].
  rewrite (IH Hr). destruct r; [|reflexivity].
  apply negb_true_iff in Hc. rewrite Hc. reflexivity.
Qed.

Lemma strip_no_space (s : string) :
  all_chars (fun c => negb (is_space c)) s = true -> strip s = s.
Proof.
  intros H. unfold strip. destruct s as [|c r]; [reflexivity|].
  pose proof H as H'. simpl in H'. apply andb_true_iff in H'.
  destruct H' as [Hc _]. apply negb_true_iff in Hc.
  rewrite lstrip_not_space by exact Hc. apply rstrip_no_space, H.
Qed.

Lemma all_chars_impl (p q : ascii -> bool) (s : string) :
  (forall c, p c = true -> q c = true) ->
  all_chars p s = true -> all_chars q s = true.
Proof.
  intros Hpq. induction s as [|c r IH]; simpl; [reflexivity|].
  intros H. apply andb_true_iff in H. destruct H as [Hc Hr].
  rewrite (Hpq _ Hc), (IH Hr). reflexivity.
Qed.

Lemma remove_char_absent (c : ascii) (s : string) :
  all_chars (fun a => negb (Ascii.eqb a c)) s = true -> remove_char c s = s.
Proof.
  induction s as [|a r IH]; simpl; [reflexivity|].
  intros H. apply andb_true_iff in H. destruct H as [Ha Hr].
  apply negb_true_iff in Ha. rewrite Ha, (IH Hr). reflexivity.
Qed.

End PyStrFacts.

(** ** Characters and dates *)

Ltac by_digit n :=
  let H := fresh in
  assert (H : n mod 10 < 10) by (apply Nat.mod_upper_bound; lia);
  unfold Cal.digit;
  let k := fresh "k" in
  remember (n mod 10) as k;
  do 10 (destruct k as [|k]; [vm_compute; reflexivity|]);
  lia.

Lemma digit_visible (n : nat) : PyStr.is_space (Cal.digit n) = false.
Proof. by_digit n. Qed.

Lemma digit_not_N (n : nat) : Ascii.eqb (Cal.digit n) "N" = false.
Proof. by_digit n. Qed.

Lemma repr_char_visible (c : ascii) :
  is_repr_char c = true -> PyStr.is_space c = false.
Proof.
  destruct c as [[] [] [] [] [] [] [] []]; vm_compute; congruence.
Qed.

Lemma repr_char_no_money (c : ascii) :
  is_repr_char c = true ->
  Ascii.eqb c "$" = false /\ Ascii.eqb c "," = false.
Proof.
  destruct c as [[] [] [] [] [] [] [] []]; vm_compute;
    solve [ discriminate | split; reflexivity ].
Qed.

(** A text that starts with a visible character other than [N] is not one of
    the missing texts. *)
Lemma head_not_missing (c : ascii) (r : string) :
  PyStr.is_space c = false -> Ascii.eqb c "N" = false ->
  missing_text (String c r) = false.
Proof.
  intros Hs Hn. unfold missing_text, PyStr.strip.
  rewrite PyStrFacts.lstrip_not_space by exact Hs.
  destruct (PyStrFacts.rstrip_head c r Hs) as [r' Hr]. rewrite Hr.
  unfold PyStr.str_in. simpl. rewrite Hn. reflexivity.
Qed.

Lemma isoformat_head (d : Cal.date) :
  exists r, Cal.isoformat d = String (Cal.digit (Cal.year d / 1000)) r.
Proof. eexists. reflexivity. Qed.

Lemma isoformat_not_missing (d : Cal.date) :
  missing_text (Cal.isoformat d) = false.
Proof.
  destruct (isoformat_head d) as [r ->].
  apply head_not_missing; [apply digit_visible | apply digit_not_N].
Qed.

Lemma timestamp_not_missing (t : Cal.timestamp) :
  missing_text (Cal.str_of_timestamp t) = false.
Proof.
  unfold Cal.str_of_timestamp, Cal.format_timestamp.
  destruct (isoformat_head (Cal.ts_date t)) as [r ->].
  apply head_not_missing; [apply digit_visible | apply digit_not_N].
Qed.

(** ** The helpers *)

Section HelperFacts.

Context {R : PyRuntime}.

Local Abbreviation val := (value pyfloat).

Lemma strip_money_replace (s : string) :
  strip_money s = PyStr.remove_char "," (PyStr.remove_char "$" s).
Proof.
  unfold strip_money. induction s as [|a r IH]; [reflexivity|].
  cbn [list_ascii_of_string filter PyStr.remove_char].
  destruct (Ascii.eqb a "$") eqn:E1; cbn [orb negb].
  - exact IH.
  - cbn [PyStr.remove_char].
    destruct (Ascii.eqb a ",") eqn:E2; cbn [negb].
    + exact IH.
    + cbn [string_of_list_ascii]. rewrite IH. reflexivity.
Qed.

Lemma parse_price_ref (x : val) : parse_price x = parsePrice_ref x.
Proof.
  unfold parse_price, parsePrice_ref, blank.
  rewrite PyStrFacts.strip_eqb_blank, strip_money_replace.
  destruct x; reflexivity.
Qed.

Lemma parse_price_range (x : val) :
  parse_price x = VNA \/ exists f, parse_price x = VFloat f.
Proof.
  unfold parse_price.
  destruct (is_none x || _); [left; reflexivity|].
  destruct (float_of_str _) as [f|]; [right; exists f|left]; reflexivity.
Qed.

Lemma parse_date_range (x : val) :
  parse_date x = VNaT \/ exists d, parse_date x = VDate d.
Proof.
  unfold parse_date.
  destruct (is_none x || _); [left; reflexivity|].
  destruct (isna x); [left; reflexivity|].
  destruct (to_datetime x) as [t|]; [right; eexists|left]; reflexivity.
Qed.

(** Outside its guard [parse_date] is the lenient parser cut to the date. *)
Lemma parse_date_lenient (x : val) :
  is_none x = false -> missing_text (py_str x) = false -> isna x = false ->
  parse_date x = lenient_date x.
Proof.
  intros H1 H2 H3. unfold parse_date, lenient_date.
  unfold missing_text in H2. rewrite H1, H2, H3. reflexivity.
Qed.

Lemma parse_date_guard (x : val) :
  is_none x = true \/ missing_text (py_str x) = true \/ isna x = true ->
  parse_date x = VNaT.
Proof.
  unfold parse_date, missing_text.
  intros [H | [H | H]]; rewrite H.
  - reflexivity.
  - rewrite orb_true_r. reflexivity.
  - destruct (_ || _); reflexivity.
Qed.

Context {L : PyRuntimeLaws R}.

Lemma repr_strip (f : pyfloat) :
  PyStr.strip (str_of_float f) = str_of_float f.
Proof.
  apply PyStrFacts.strip_no_space.
  eapply PyStrFacts.all_chars_impl; [|apply str_of_float_chars].
  intros c Hc. rewrite (repr_char_visible c Hc). reflexivity.
Qed.

Lemma repr_no_money (f : pyfloat) :
  PyStr.remove_char "," (PyStr.remove_char "$" (str_of_float f))
  = str_of_float f.
Proof.
  rewrite (PyStrFacts.remove_char_absent "$").
  - apply PyStrFacts.remove_char_absent.
    eapply PyStrFacts.all_chars_impl; [|apply str_of_float_chars].
    intros c Hc. destruct (repr_char_no_money c Hc) as [_ ->]. reflexivity.
  - eapply PyStrFacts.all_chars_impl; [|apply str_of_float_chars].
    intros c Hc. destruct (repr_char_no_money c Hc) as [-> _]. reflexivity.
Qed.

(** A float goes through [parse_price] unchanged, NaN included. *)
Lemma parse_price_float (f : pyfloat) : parse_price (VFloat f) = VFloat f.
Proof.
  unfold parse_price. cbn [is_none py_str orb].
  rewrite repr_strip, repr_no_money, float_of_str_of_float.
  destruct (String.eqb_spec (str_of_float f) "") as [E|_]; [|reflexivity].
  exfalso. exact (str_of_float_nonempty _ E).
Qed.

Lemma parse_price_NA : parse_price (VNA : val) = VNA.
Proof.
  unfold parse_price. cbn. rewrite float_of_str_NA. reflexivity.
Qed.

Lemma parse_price_idem (x : val) :
  parse_price (parse_price x) = parse_price x.
Proof.
  destruct (parse_price_range x) as [-> | [f ->]].
  - apply parse_price_NA.
  - apply parse_price_float.
Qed.

Lemma parse_price_fixed (x : val) :
  parse_price x = x -> x = VNA \/ exists f, x = VFloat f.
Proof.
  intros H. destruct (parse_price_range x) as [E | [f E]]; rewrite H in E.
  - left; exact E.
  - right; exists f; exact E.
Qed.

Lemma parse_date_NaT : parse_date (VNaT : val) = VNaT.
Proof. reflexivity. Qed.

(** A date that [to_datetime] produced goes through [parse_date] unchanged. *)
Lemma parse_date_date (v : val) (t : Cal.timestamp) :
  to_datetime v = Some t ->
  parse_date (VDate (Cal.ts_date t)) = VDate (Cal.ts_date t).
Proof.
  intros H. rewrite parse_date_lenient; try reflexivity.
  - unfold lenient_date. rewrite (to_datetime_of_date _ _ H). reflexivity.
  - apply isoformat_not_missing.
Qed.

Lemma parse_date_idem (x : val) : parse_date (parse_date x) = parse_date x.
Proof.
  unfold parse_date at 2 3.
  destruct (is_none x || _); [reflexivity|].
  destruct (isna x); [reflexivity|].
  destruct (to_datetime x) as [t|] eqn:E; [|reflexivity].
  eapply parse_date_date, E.
Qed.

Lemma parse_date_fixed (x : val) :
  parse_date x = x ->
  x = VNaT \/
  exists d, x = VDate d /\ to_datetime (VDate d) = Some (Cal.midnight d).
Proof.
  intros H. pose proof H as H'. unfold parse_date in H'.
  destruct (is_none x || _); [left; congruence|].
  destruct (isna x); [left; congruence|].
  destruct (to_datetime x) as [t|] eqn:E; [|left; congruence].
  right. exists (Cal.ts_date t). split; [congruence|].
  eapply to_datetime_of_date, E.
Qed.

End HelperFacts.

(** ** The error monad on lists *)

Lemma mapM_pointwise {A B : Type} (f : A -> option B) (g : A -> B)
  (l : list A) :
  (forall x, In x l -> f x = Some (g x)) -> mapM f l = Some (map g l).
Proof.
  induction l as [|a r IH]; intros H; [reflexivity|].
  cbn [mapM map]. rewrite (H a) by (left; reflexivity). cbn [bind].
  rewrite IH by (intros x Hx; apply H; right; exact Hx). reflexivity.
Qed.

Lemma mapM_Forall2 {A B : Type} (f : A -> option B) (l : list A)
  (l' : list B) :
  mapM f l = Some l' -> Forall2 (fun x y => f x = Some y) l l'.
Proof.
  revert l'. induction l as [|a r IH]; intros l' H; cbn [mapM] in H.
  - injection H as <-. constructor.
  - destruct (f a) as [b|] eqn:Ea; [|discriminate]. cbn [bind] in H.
    destruct (mapM f r) as [bs|]; [|discriminate]. cbn [bind] in H.
    injection H as <-. constructor; [exact Ea | apply IH; reflexivity].
Qed.

Lemma mapM_length {A B : Type} (f : A -> option B) (l : list A)
  (l' : list B) :
  mapM f l = Some l' -> List.length l' = List.length l.
Proof.
  intros H. apply mapM_Forall2 in H.
  symmetry. eapply Forall2_length, H.
Qed.

Lemma mapM_total {A B : Type} (f : A -> option B) (l : list A) :
  (forall x, In x l -> exists y, f x = Some y) -> exists l', mapM f l = Some l'.
Proof.
  induction l as [|a r IH]; intros H; [eexists; reflexivity|].
  destruct (H a) as [b Hb]; [left; reflexivity|].
  destruct IH as [bs Hbs]; [intros x Hx; apply H; right; exact Hx|].
  exists (b :: bs). cbn [mapM]. rewrite Hb, Hbs. reflexivity.
Qed.

(** ** Frames *)

Section FrameFacts.

Context {R : PyRuntime}.

Local Abbreviation val := (value pyfloat).

Lemma update_at_pure (f : val -> val) (i : nat) (r : list val) :
  i < List.length r -> update_at i (pure f) r = Some (upd i f r).
Proof.
  revert i. induction r as [|x t IH]; intros i H; cbn in H; [lia|].
  destruct i as [|j]; cbn [update_at upd]; [reflexivity|].
  rewrite IH by lia. reflexivity.
Qed.

Lemma upd_length (f : val -> val) (i : nat) (r : list val) :
  List.length (upd i f r) = List.length r.
Proof.
  revert i. induction r as [|x t IH]; intros [|j]; cbn; auto.
Qed.

Lemma rows_of_width_upd (n i : nat) (f : val -> val) (rs : list (list val)) :
  rows_of_width n rs -> rows_of_width n (map (upd i f) rs).
Proof.
  unfold rows_of_width. intros H. apply Forall_map.
  eapply Forall_impl; [|exact H]. cbn. intros r Hr.
  rewrite upd_length. exact Hr.
Qed.

(** [df[c] = df[c].apply(f)] for a total [f], on a frame whose rows have a
    cell under [c]. *)
Lemma map_col_pure (c : string) (f : val -> val) (cols : list string)
  (rs : list (list val)) (i n : nat) :
  col_index c cols = Some i -> i < n -> rows_of_width n rs ->
  map_col c (pure f) (mkDF cols rs) = Some (mkDF cols (map (upd i f) rs)).
Proof.
  intros Hc Hi Hw. unfold map_col. cbn [columns rows]. rewrite Hc.
  cbn [bind]. rewrite (mapM_pointwise _ (upd i f)); [reflexivity|].
  intros r Hr. apply update_at_pure.
  unfold rows_of_width in Hw. rewrite Forall_forall in Hw.
  rewrite (Hw r Hr). exact Hi.
Qed.

Lemma select_cols_shape (cs : list string) (df df' : DataFrame) :
  select_cols cs df = Some df' ->
  columns df' = cs /\ rows_of_width (List.length cs) (rows df')
  /\ List.length (rows df') = List.length (rows df).
Proof.
  unfold select_cols. intros H.
  destruct (mapM _ (rows df)) as [rs|] eqn:E; [|discriminate].
  cbn [bind] in H. destruct (forallb _ cs); [|discriminate].
  injection H as <-. cbn [columns rows]. split; [reflexivity|].
  split; [|eapply mapM_length, E].
  apply mapM_Forall2 in E. unfold rows_of_width.
  induction E as [|r r' l l' Hr _ IH]; constructor; [|exact IH].
  eapply mapM_length, Hr.
Qed.

Lemma col_index_lt (c : string) (cols : list string) (i : nat) :
  col_index c cols = Some i -> i < List.length cols.
Proof.
  revert i. induction cols as [|c' r IH]; intros i H; cbn in H;
    [discriminate|].
  destruct (String.eqb c c'); [injection H as <-; cbn; lia|].
  destruct (col_index c r) as [j|]; [|discriminate].
  injection H as <-. cbn. specialize (IH j eq_refl). lia.
Qed.

(** Selecting columns that are there, in a well-formed frame, succeeds. *)
Lemma select_cols_total (cs : list string) (df : DataFrame) :
  well_formed df = true -> forallb (fun c => has_col c df) cs = true ->
  exists df', select_cols cs df = Some df'.
Proof.
  intros Hw Hc. unfold select_cols. rewrite Hc.
  destruct (@mapM_total (list val) (list val)
              (fun r => mapM (row_get (columns df) r) cs) (rows df))
    as [rs Hrs].
  - intros r Hr. apply mapM_total. intros c Hin.
    unfold well_formed in Hw. rewrite forallb_forall in Hw.
    specialize (Hw r Hr). apply Nat.eqb_eq in Hw.
    rewrite forallb_forall in Hc. specialize (Hc c Hin).
    unfold has_col in Hc. unfold row_get.
    destruct (col_index c (columns df)) as [i|] eqn:Ei; [|discriminate].
    cbn [bind]. apply col_index_lt in Ei.
    destruct (nth_error r i) as [v|] eqn:Ev; [exists v; reflexivity|].
    apply nth_error_None in Ev. lia.
  - rewrite Hrs. cbn [bind]. eexists; reflexivity.
Qed.

(** Selecting the canonical columns of a canonical frame changes nothing. *)
Lemma select_required_id (rs : list (list val)) :
  rows_of_width 8 rs ->
  select_cols REQUIRED_COLS (mkDF REQUIRED_COLS rs)
  = Some (mkDF REQUIRED_COLS rs).
Proof.
  intros Hw. unfold select_cols. cbn [columns rows].
  rewrite (mapM_pointwise _ (fun r => r)).
  - cbn [bind]. rewrite map_id. reflexivity.
  - intros r Hr. unfold rows_of_width in Hw. rewrite Forall_forall in Hw.
    specialize (Hw r Hr).
    do 9 (destruct r as [|? r]; try discriminate Hw). reflexivity.
Qed.

(** The column assignments of [normalize_df], on a canonical frame. *)
Lemma normalize_columns (rs : list (list val)) :
  rows_of_width 8 rs ->
  (df <- map_col "WO" (pure str_strip) (mkDF REQUIRED_COLS rs) ;;
   df <- map_col "Scheduled Date" (pure parse_date) df ;;
   df <- map_col "Price" (pure parse_price) df ;;
   foldM (fun df c => map_col c (pure fill_str) df) TEXT_COLS df)
  = Some (mkDF REQUIRED_COLS (map norm_row rs)).
Proof.
  intros Hw. cbn [foldM TEXT_COLS].
  repeat (erewrite map_col_pure;
          [ cbn [bind]
          | reflexivity
          | cbn; repeat constructor
          | repeat apply rows_of_width_upd; exact Hw ]).
  f_equal. f_equal. rewrite !map_map. apply map_ext_in.
  intros r Hr. unfold rows_of_width in Hw. rewrite Forall_forall in Hw.
  specialize (Hw r Hr).
  do 9 (destruct r as [|? r]; try discriminate Hw). reflexivity.
Qed.

(** [normalize_df] selects the canonical columns and rewrites each row. *)
Lemma normalize_df_rows (df : DataFrame) :
  normalize_df df =
  (sel <- select_cols REQUIRED_COLS df ;;
   Some (mkDF REQUIRED_COLS (map norm_row (rows sel)))).
Proof.
  unfold normalize_df.
  destruct (select_cols REQUIRED_COLS df) as [sel|] eqn:E; [|reflexivity].
  cbn [bind]. destruct (select_cols_shape _ _ _ E) as (Hc & Hw & _).
  destruct sel as [cols rs]. cbn [columns rows] in *. subst cols.
  apply normalize_columns. exact Hw.
Qed.

End FrameFacts.

(** ** Normalisation *)

Section NormalizeFacts.

Context {R : PyRuntime}.

Local Abbreviation val := (value pyfloat).

Lemma filterM_pointwise (p : list val -> option bool) (q : list val -> bool)
  (l : list (list val)) :
  (forall r, In r l -> p r = Some (q r)) -> filterM p l = Some (filter q l).
Proof.
  induction l as [|a t IH]; intros H; [reflexivity|].
  cbn [filterM filter]. rewrite (H a) by (left; reflexivity). cbn [bind].
  rewrite IH by (intros x Hx; apply H; right; exact Hx). reflexivity.
Qed.

Lemma filter_map_comm {A B : Type} (f : A -> B) (p : B -> bool) (q : A -> bool)
  (l : list A) :
  (forall x, In x l -> p (f x) = q x) ->
  filter p (map f l) = map f (filter q l).
Proof.
  induction l as [|a t IH]; intros H; [reflexivity|].
  cbn [map filter]. rewrite (H a) by (left; reflexivity).
  rewrite IH by (intros x Hx; apply H; right; exact Hx).
  destruct (q a); reflexivity.
Qed.

Lemma rows_of_width_filter (n : nat) (q : list val -> bool)
  (rs : list (list val)) :
  rows_of_width n rs -> rows_of_width n (filter q rs).
Proof.
  unfold rows_of_width. rewrite !Forall_forall. intros H r Hr.
  apply filter_In in Hr. apply H, Hr.
Qed.

Lemma norm_row_length (r : list val) :
  List.length (norm_row r) = List.length r.
Proof.
  do 9 (destruct r as [|? r]; try reflexivity).
Qed.

Lemma rows_of_width_norm (n : nat) (rs : list (list val)) :
  rows_of_width n rs -> rows_of_width n (map norm_row rs).
Proof.
  unfold rows_of_width. intros H. apply Forall_map.
  eapply Forall_impl; [|exact H]. cbn. intros r Hr.
  rewrite norm_row_length. exact Hr.
Qed.

(** The mask of the Apply handler, on a canonical frame. *)
Lemma loc_mask_rows (rs : list (list val)) :
  rows_of_width 8 rs ->
  loc_mask (mkDF REQUIRED_COLS rs)
  = Some (mkDF REQUIRED_COLS (filter keep_row rs)).
Proof.
  intros Hw. unfold loc_mask. cbn [columns rows].
  rewrite (filterM_pointwise _ keep_row); [reflexivity|].
  intros r Hr. unfold rows_of_width in Hw. rewrite Forall_forall in Hw.
  specialize (Hw r Hr).
  do 9 (destruct r as [|? r]; try discriminate Hw). reflexivity.
Qed.

Lemma fill_str_text (x : val) : fill_str x = VStr (field_text x).
Proof. unfold fill_str, field_text. destruct (isna x); reflexivity. Qed.

(** A normalised row passes the mask exactly when the row it comes from is
    not blank. *)
Lemma keep_norm_row (r : list val) :
  List.length r = 8 -> keep_row (norm_row r) = negb (blank_row r).
Proof.
  intros H. do 9 (destruct r as [|? r]; try discriminate H).
  cbn [norm_row keep_row blank_row]. rewrite !fill_str_text.
  unfold str_strip, strip_ne_empty, blank.
  rewrite PyStrFacts.strip_idem, !PyStrFacts.strip_eqb_blank.
  rewrite !negb_andb. reflexivity.
Qed.

(** The Apply handler selects the canonical columns, drops the blank rows
    and rewrites the others. *)
Lemma apply_changes_rows (df : DataFrame) :
  apply_changes df =
  (sel <- select_cols REQUIRED_COLS df ;;
   Some (mkDF REQUIRED_COLS
           (map norm_row (filter (fun r => negb (blank_row r)) (rows sel))))).
Proof.
  unfold apply_changes. rewrite normalize_df_rows.
  destruct (select_cols REQUIRED_COLS df) as [sel|] eqn:E; [|reflexivity].
  cbn [bind]. destruct (select_cols_shape _ _ _ E) as (_ & Hw & _).
  cbn in Hw. rewrite loc_mask_rows by (apply rows_of_width_norm, Hw).
  f_equal. f_equal. apply filter_map_comm.
  intros r Hr. apply keep_norm_row.
  unfold rows_of_width in Hw. rewrite Forall_forall in Hw. apply Hw, Hr.
Qed.

Lemma str_strip_idem (x : val) : str_strip (str_strip x) = str_strip x.
Proof.
  unfold str_strip. cbn [py_str]. rewrite PyStrFacts.strip_idem. reflexivity.
Qed.

Lemma fill_str_idem (x : val) : fill_str (fill_str x) = fill_str x.
Proof. rewrite !fill_str_text. reflexivity. Qed.

Context {L : PyRuntimeLaws R}.

Lemma norm_row_idem (r : list val) : norm_row (norm_row r) = norm_row r.
Proof.
  do 9 (destruct r as [|? r]; try reflexivity).
  cbn [norm_row].
  rewrite str_strip_idem, !fill_str_idem, parse_date_idem, parse_price_idem.
  reflexivity.
Qed.

(** A canonical frame of normalised rows is a fixed point of
    [normalize_df]. *)
Lemma normalize_df_fixed (rs : list (list val)) :
  rows_of_width 8 rs -> (forall r, In r rs -> norm_row r = r) ->
  normalize_df (mkDF REQUIRED_COLS rs) = Some (mkDF REQUIRED_COLS rs).
Proof.
  intros Hw Hfix. rewrite normalize_df_rows, select_required_id by exact Hw.
  cbn [bind rows]. f_equal. f_equal.
  rewrite <- (map_id rs) at 2. apply map_ext_in. exact Hfix.
Qed.

End NormalizeFacts.

Section NormalizeClaims.

Context {R : PyRuntime}.

Local Abbreviation val := (value pyfloat).

Lemma filter_keeps_all {A : Type} (p : A -> bool) (l : list A) :
  (forall x, In x l -> p x = true) -> filter p l = l.
Proof.
  induction l as [|a t IH]; intros H; [reflexivity|].
  cbn [filter]. rewrite (H a) by (left; reflexivity).
  rewrite IH by (intros x Hx; apply H; right; exact Hx). reflexivity.
Qed.

Lemma editable_select (T : DataFrame) :
  editable T ->
  exists rs, select_cols REQUIRED_COLS T = Some (mkDF REQUIRED_COLS rs)
             /\ rows_of_width 8 rs
             /\ List.length rs = List.length (rows T).
Proof.
  intros [Hw Hc]. destruct (select_cols_total _ _ Hw Hc) as [sel E].
  destruct (select_cols_shape _ _ _ E) as (H1 & H2 & H3).
  destruct sel as [cols rs]. cbn [columns rows] in *. subst cols.
  exists rs. split; [exact E|]. split; [exact H2 | exact H3].
Qed.

(** C2. The normalisation of the Apply handler ([normalize_df] followed by
    the row mask) succeeds on every table that has the eight canonical
    columns, keeps the canonical columns, and among the rows of the table
    drops exactly those whose WO, Customer Name and Model Description are
    all blank after trimming: the result holds the normalised form of every
    other row, in order. *)
Theorem apply_drops_exactly_blank_rows (T : DataFrame) :
  editable T ->
  exists rs N M,
    select_cols REQUIRED_COLS T = Some (mkDF REQUIRED_COLS rs) /\
    normalize_df T = Some N /\ rows N = map norm_row rs /\
    apply_changes T = Some M /\
    columns M = REQUIRED_COLS /\
    rows M = map norm_row (filter (fun r => negb (blank_row r)) rs) /\
    (forall r, In r rs -> blank_row r = false -> In (norm_row r) (rows M)).
Proof.
  intros HT. destruct (editable_select _ HT) as (rs & E & Hw & _).
  exists rs. eexists. eexists.
  split; [exact E|].
  rewrite normalize_df_rows, apply_changes_rows, E. cbn [bind rows columns].
  repeat (split; [reflexivity|]).
  intros r Hr Hb. apply in_map, filter_In. split; [exact Hr|].
  rewrite Hb. reflexivity.
Qed.

Context {L : PyRuntimeLaws R}.

(** C3. [normalize_df] is idempotent: on every table that has the eight
    canonical columns it succeeds, and normalising its result gives that
    result again.  The same holds with the row mask of the Apply handler
    added. *)
Theorem normalize_idempotent (T : DataFrame) :
  editable T ->
  (exists N, normalize_df T = Some N /\ normalize_df N = Some N) /\
  (exists M, apply_changes T = Some M /\ apply_changes M = Some M).
Proof.
  intros HT. destruct (editable_select _ HT) as (rs & E & Hw & _). split.
  - eexists. rewrite normalize_df_rows, E. cbn [bind rows].
    split; [reflexivity|].
    apply normalize_df_fixed; [apply rows_of_width_norm, Hw|].
    intros r Hr. apply in_map_iff in Hr. destruct Hr as (r0 & <- & _).
    apply norm_row_idem.
  - eexists. rewrite apply_changes_rows, E. cbn [bind rows].
    split; [reflexivity|].
    set (kept := filter (fun r => negb (blank_row r)) rs).
    assert (Hk : rows_of_width 8 kept) by (apply rows_of_width_filter, Hw).
    rewrite apply_changes_rows, select_required_id
      by (apply rows_of_width_norm, Hk).
    cbn [bind rows]. f_equal. f_equal.
    rewrite filter_keeps_all.
    + rewrite map_map. apply map_ext. intros r. apply norm_row_idem.
    + intros r Hr. apply in_map_iff in Hr. destruct Hr as (r0 & <- & Hr0).
      rewrite <- keep_norm_row, norm_row_idem.
      * rewrite keep_norm_row.
        -- apply filter_In in Hr0. apply Hr0.
        -- unfold rows_of_width in Hk. rewrite Forall_forall in Hk.
           apply Hk, Hr0.
      * rewrite norm_row_length.
        unfold rows_of_width in Hk. rewrite Forall_forall in Hk.
        apply Hk, Hr0.
Qed.

End NormalizeClaims.

Section HelperClaims.

Context {R : PyRuntime}.

Local Abbreviation val := (value pyfloat).

(** Given that the lenient parser reads nothing out of missing values,
    [parse_date] is the lenient parser on everything but [None]. *)
Lemma parse_date_is_lenient (x : val) :
  lenient_on_missing -> is_none x = false -> parse_date x = lenient_date x.
Proof.
  intros HL Hn.
  destruct (missing_text (py_str x)) eqn:Em.
  - rewrite parse_date_guard by auto.
    unfold lenient_date. rewrite HL by auto. reflexivity.
  - destruct (isna x) eqn:Ei.
    + rewrite parse_date_guard by auto.
      unfold lenient_date. rewrite HL by auto. reflexivity.
    + apply parse_date_lenient; assumption.
Qed.

(** C4. [parse_date] is total: it returns a calendar date or the null
    sentinel NaT.  It agrees on every input with the reference definition
    (null, the empty text, "None" and "NaT" give the null sentinel, any other
    value goes to the lenient parser, whose failures give the null sentinel),
    the lenient parser reading no date out of a missing value.  What the
    parser reads is cut to its date, and "2024-01-15" gives the date
    2024-01-15 when the parser reads it as an instant of that day. *)
Theorem parse_date_matches_reference :
  lenient_on_missing ->
  (forall x : val, parse_date x = parseDate_ref x) /\
  (forall x : val, parse_date x = VNaT \/ exists d, parse_date x = VDate d) /\
  parse_date (VNone : val) = VNaT /\
  parse_date (VStr "" : val) = VNaT /\
  parse_date (VStr "None" : val) = VNaT /\
  parse_date (VStr "NaT" : val) = VNaT /\
  (forall (x : val) t,
     to_datetime x = Some t -> parse_date x = VDate (Cal.ts_date t)) /\
  (forall x : val, to_datetime x = None -> parse_date x = VNaT) /\
  (forall t, to_datetime (VStr "2024-01-15") = Some t ->
     Cal.ts_date t = Cal.mkDate 2024 1 15 ->
     parse_date (VStr "2024-01-15" : val) = VDate (Cal.mkDate 2024 1 15)).
Proof.
  intros HL.
  assert (Href : forall x : val, parse_date x = parseDate_ref x).
  { intros x. destruct x; try (apply parse_date_is_lenient; [exact HL|reflexivity]).
    - reflexivity.
    - cbn [parseDate_ref].
      destruct (String.eqb_spec s "") as [->|_]; [reflexivity|].
      destruct (String.eqb_spec s "None") as [->|_]; [reflexivity|].
      destruct (String.eqb_spec s "NaT") as [->|_]; [reflexivity|].
      cbn [orb]. apply parse_date_is_lenient; [exact HL|reflexivity]. }
  assert (Hsome : forall (x : val) t,
             to_datetime x = Some t -> parse_date x = VDate (Cal.ts_date t)).
  { intros x t Ht. destruct x;
      try (rewrite parse_date_is_lenient by (exact HL || reflexivity);
           unfold lenient_date; rewrite Ht; reflexivity).
    rewrite (HL VNone) in Ht by (right; reflexivity). discriminate. }
  split; [exact Href|].
  split; [apply parse_date_range|].
  repeat (split; [reflexivity|]).
  split; [exact Hsome|]. split.
  - intros x Hx. destruct (is_none x) eqn:En.
    + destruct x; try discriminate. reflexivity.
    + rewrite parse_date_is_lenient by assumption.
      unfold lenient_date. rewrite Hx. reflexivity.
  - intros t Ht Hd. rewrite (Hsome _ _ Ht), Hd. reflexivity.
Qed.

(** C5. [parse_price] is total: it returns a float or the null sentinel NA.
    It agrees on every input with the reference definition (null and texts
    that are blank after trimming give the null sentinel, otherwise the text
    without its [$] and [,] is read as a float, and what cannot be read
    gives the null sentinel).  "$1,234.50" gives the float that "1234.50"
    reads as, the empty text gives the null sentinel, and so does "garbage",
    which is no float. *)
Theorem parse_price_matches_reference :
  (forall x : val, parse_price x = parsePrice_ref x) /\
  (forall x : val, parse_price x = VNA \/ exists f, parse_price x = VFloat f) /\
  parse_price (VNone : val) = VNA /\
  (forall s, blank s = true -> parse_price (VStr s : val) = VNA) /\
  parse_price (VStr "" : val) = VNA /\
  (forall f, float_of_str "1234.50" = Some f ->
     parse_price (VStr "$1,234.50" : val) = VFloat f) /\
  (float_of_str "garbage" = None -> parse_price (VStr "garbage" : val) = VNA).
Proof.
  split; [apply parse_price_ref|].
  split; [apply parse_price_range|].
  split; [reflexivity|]. split.
  - intros s Hs. rewrite parse_price_ref. cbn [parsePrice_ref py_str].
    rewrite Hs. reflexivity.
  - split; [reflexivity|]. split.
    + intros f Hf. unfold parse_price. cbn. rewrite Hf. reflexivity.
    + intros Hg. unfold parse_price. cbn. rewrite Hg. reflexivity.
Qed.

Context {L : PyRuntimeLaws R}.

(** C10. [parse_price] does not turn NaN into the null sentinel: a NaN
    float goes through unchanged, and the text "nan" gives a NaN float, which
    is not the null sentinel NA; so [normalize_df] can leave a NaN in the
    Price column. *)
Theorem parse_price_keeps_nan :
  (forall f, float_isnan f = true ->
     parse_price (VFloat f) = VFloat f /\ VFloat f <> (VNA : val)) /\
  (exists n, float_isnan n = true /\
     parse_price (VStr "nan" : val) = VFloat n /\
     VFloat n <> (VNA : val) /\
     normalize_df
       (mkDF REQUIRED_COLS
          [[VStr "A1"; VStr ""; VStr ""; VStr ""; VStr "Acme"; VStr "";
            VNaT; VStr "nan"]])
     = Some (mkDF REQUIRED_COLS
          [[VStr "A1"; VStr ""; VStr ""; VStr ""; VStr "Acme"; VStr "";
            VNaT; VFloat n]])).
Proof.
  split.
  - intros f _. split; [apply parse_price_float | discriminate].
  - destruct float_of_str_nan as (n & Hn & Hnan). exists n.
    assert (Hp : parse_price (VStr "nan" : val) = VFloat n).
    { unfold parse_price. cbn. rewrite Hn. reflexivity. }
    split; [exact Hnan|]. split; [exact Hp|]. split; [discriminate|].
    rewrite normalize_df_rows, select_required_id
      by (repeat constructor).
    cbn [bind rows map norm_row]. rewrite Hp. reflexivity.
Qed.

End HelperClaims.

(** ** Batching *)

Section Batching.

Variable A : Type.

Lemma slice_step (l : list A) (i step : nat) :
  slice l i (i + step) = firstn step (skipn i l).
Proof. unfold slice. f_equal. lia. Qed.

(** With enough iterations, the slices at the indices of
    [range(start, len(l), step)] put end to end are [l] from [start] on. *)
Lemma range_slices_concat (l : list A) (step : nat) :
  0 < step ->
  forall fuel start,
    List.length l - start <= fuel ->
    List.concat (map (fun i => slice l i (i + step))
              (range_iter fuel start (List.length l) step))
    = skipn start l.
Proof.
  intros Hstep. induction fuel as [|k IH]; intros start Hf.
  - cbn. symmetry. apply skipn_all2. lia.
  - cbn [range_iter]. destruct (Nat.ltb_spec start (List.length l)) as [Hlt|Hge].
    + cbn [map List.concat]. rewrite IH by lia. rewrite slice_step.
      rewrite (Nat.add_comm start step), <- skipn_skipn.
      apply firstn_skipn.
    + cbn. symmetry. apply skipn_all2. lia.
Qed.

Lemma range_iter_length_500 (stop : nat) :
  forall fuel start,
    stop - start <= fuel ->
    List.length (range_iter fuel start stop 500) = (stop - start + 499) / 500.
Proof.
  induction fuel as [|k IH]; intros start Hf.
  - cbn [range_iter List.length].
    replace (stop - start) with 0 by lia. reflexivity.
  - cbn [range_iter]. destruct (Nat.ltb_spec start stop) as [Hlt|Hge].
    + cbn [List.length]. rewrite IH by lia.
      pose proof (Nat.div_mod_eq (stop - (start + 500) + 499) 500).
      pose proof (Nat.div_mod_eq (stop - start + 499) 500).
      pose proof (Nat.mod_upper_bound (stop - (start + 500) + 499) 500).
      pose proof (Nat.mod_upper_bound (stop - start + 499) 500).
      lia.
    + cbn [List.length]. replace (stop - start) with 0 by lia. reflexivity.
Qed.

Lemma range_iter_lt (stop step : nat) :
  forall fuel start i,
    In i (range_iter fuel start stop step) -> i < stop.
Proof.
  induction fuel as [|k IH]; intros start i H.
  - destruct H.
  - cbn [range_iter] in H.
    destruct (Nat.ltb_spec start stop) as [Hlt|Hge]; [|destruct H].
    destruct H as [<-|H]; [exact Hlt | eapply IH, H].
Qed.

End Batching.

Section BatchClaims.

Context {R : PyRuntime}.

Lemma batches_concat (ps : list payload) : List.concat (batches ps) = ps.
Proof.
  unfold batches, py_range, BATCH.
  rewrite range_slices_concat by lia. reflexivity.
Qed.

Lemma batches_length (ps : list payload) :
  List.length (batches ps) = (List.length ps + 499) / 500.
Proof.
  unfold batches, py_range, BATCH. rewrite length_map.
  rewrite range_iter_length_500 by lia. rewrite Nat.sub_0_r. reflexivity.
Qed.

Lemma batches_sizes (ps : list payload) :
  Forall (fun b => 1 <= List.length b <= 500) (batches ps).
Proof.
  unfold batches, py_range, BATCH. apply Forall_map, Forall_forall.
  intros i Hi. apply range_iter_lt in Hi. rewrite slice_step.
  rewrite length_firstn, length_skipn. lia.
Qed.

(** C9. [save_data] inserts in batches of 500: for a non-empty table of n
    rows, whose rows map to payloads, it sends the delete and then
    ceil(n/500) inserts, each of 1 to 500 rows, and the batches put end to
    end, in the order sent, are the mapped rows in the order of the table. *)
Theorem save_batches_of_500 (df : DataFrame) (label : option string)
  (ps : list payload) :
  df_empty df = false ->
  mapM (to_payload (columns df) label) (rows df) = Some ps ->
  exists bs,
    save_data df label
    = (DeleteNeq "wo" "___never___" :: map Insert bs, Returned) /\
    List.length bs = (List.length (rows df) + 499) / 500 /\
    Forall (fun b => 1 <= List.length b <= 500) bs /\
    List.concat bs = ps /\
    List.length ps = List.length (rows df).
Proof.
  intros He Hm. exists (batches ps). unfold save_data. rewrite He, Hm.
  split; [reflexivity|].
  pose proof (mapM_length _ _ _ Hm) as Hlen.
  split; [rewrite batches_length, Hlen; reflexivity|].
  split; [apply batches_sizes|].
  split; [apply batches_concat | exact Hlen].
Qed.

End BatchClaims.

(** ** Loading *)

Section LoadFacts.

Context {R : PyRuntime}.

Local Abbreviation val := (value pyfloat).

Lemma mapM_map_pointwise {A B C : Type} (f : B -> option C) (g : A -> B)
  (h : A -> C) (l : list A) :
  (forall x, f (g x) = Some (h x)) -> mapM f (map g l) = Some (map h l).
Proof.
  intros H. induction l as [|a t IH]; [reflexivity|].
  cbn [map mapM]. rewrite H, IH. reflexivity.
Qed.

Lemma map_col_map {A : Type} (c : string) (f : val -> option val)
  (cols : list string) (g h : A -> list val) (l : list A) (i : nat) :
  col_index c cols = Some i ->
  (forall x, update_at i f (g x) = Some (h x)) ->
  map_col c f (mkDF cols (map g l)) = Some (mkDF cols (map h l)).
Proof.
  intros Hc H. unfold map_col. cbn [columns rows]. rewrite Hc. cbn [bind].
  rewrite (mapM_map_pointwise _ g h) by exact H. reflexivity.
Qed.

Lemma drop_col_map {A : Type} (c : string) (cols : list string)
  (g : A -> list val) (l : list A) (i : nat) :
  col_index c cols = Some i ->
  drop_col (mkDF cols (map g l)) c
  = mkDF (remove_at i cols) (map (fun x => remove_at i (g x)) l).
Proof.
  intros Hc. unfold drop_col. cbn [columns rows]. rewrite Hc, map_map.
  reflexivity.
Qed.

(** After the renaming and the removal of the storage-only columns. *)
Lemma renamed_frame (l : list stored_row) :
  fold_left drop_col
    (filter (fun c => has_col c (rename RENAME (frame_of_rows l)))
       ["uploaded_name"; "id"])
    (rename RENAME (frame_of_rows l))
  = mkDF REQUIRED_COLS (map (store_cells (has_price l)) l).
Proof.
  unfold frame_of_rows, rename. cbn [columns rows].
  change (filter _ ["uploaded_name"; "id"]) with ["uploaded_name"; "id"].
  cbn [fold_left].
  erewrite drop_col_map by reflexivity.
  erewrite drop_col_map by reflexivity.
  reflexivity.
Qed.

Lemma load_price_cell (numeric : bool) (p : option pyfloat) :
  load_price (price_cell numeric p)
  = Some (match p with
          | Some f => VFloat f
          | None => loaded_missing numeric
          end).
Proof.
  destruct p as [f|]; [reflexivity|].
  unfold price_cell, loaded_missing, nan_cell.
  destruct numeric; [|reflexivity].
  destruct (float_of_str "nan"); reflexivity.
Qed.

(** [load_data] on a response with rows: one canonical row per stored row,
    in order, and the label of the first row. *)
Lemma load_rows_eq (r0 : stored_row) (rest : list stored_row) :
  load_rows (r0 :: rest)
  = Some (mkDF REQUIRED_COLS (loaded_rows (r0 :: rest)),
          opt_str (uploaded_name r0)).
Proof.
  unfold loaded_rows. remember (r0 :: rest) as l eqn:El.
  unfold load_rows.
  replace (has_col "uploaded_name" (frame_of_rows l)) with true
    by reflexivity.
  replace (r0' <- hd_error (rows (frame_of_rows l)) ;;
           row_get (columns (frame_of_rows l)) r0' "uploaded_name")
    with (Some (opt_str (uploaded_name r0))) by (subst l; reflexivity).
  cbn [bind]. rewrite renamed_frame.
  erewrite map_col_map; [cbn [bind] | reflexivity | intros x; reflexivity].
  erewrite (map_col_map "Price" load_price _ _
              (fun r => [ opt_str (wo r); opt_str (quote r);
                          opt_str (po_number r); opt_str (status r);
                          opt_str (customer_name r);
                          opt_str (model_description r);
                          parse_date (opt_str (scheduled_date r));
                          match price r with
                          | Some f => VFloat f
                          | None => loaded_missing (has_price l)
                          end ]));
    [ cbn [bind]
    | reflexivity
    | intros x; cbn [update_at bind]; rewrite load_price_cell; reflexivity ].
  cbn [foldM TEXT_COLS].
  repeat (erewrite map_col_map;
          [cbn [bind] | reflexivity | intros x; reflexivity]).
  change (filter _ REQUIRED_COLS) with REQUIRED_COLS.
  unfold select_cols. cbn [columns rows].
  rewrite (mapM_map_pointwise _ _ (load_row (has_price l)))
    by (intros x; reflexivity).
  reflexivity.
Qed.

Lemma load_data_empty (s : store) :
  table s = [] -> load_data s = Some (mkDF REQUIRED_COLS [], VNone).
Proof. intros E. unfold load_data. rewrite E. reflexivity. Qed.

Lemma load_data_rows (s : store) (r0 : stored_row) (rest : list stored_row) :
  table s = r0 :: rest ->
  load_data s
  = Some (mkDF REQUIRED_COLS (loaded_rows (r0 :: rest)),
          opt_str (uploaded_name r0)).
Proof.
  intros E. unfold load_data. rewrite E. apply load_rows_eq.
Qed.

End LoadFacts.

(** ** Saving *)

Section SaveFacts.

Context {R : PyRuntime}.

Local Abbreviation val := (value pyfloat).

Lemma store_rows_app (a b : list payload) (i : Z) :
  store_rows (a ++ b) i
  = (store_rows a i ++ store_rows b (i + Z.of_nat (List.length a)))%list.
Proof.
  revert i. induction a as [|p t IH]; intros i.
  - cbn. rewrite Z.add_0_r. reflexivity.
  - cbn [app store_rows List.length]. rewrite IH. cbn [app].
    do 3 f_equal. lia.
Qed.

Lemma exec_all_inserts (bs : list (list payload)) (s : store) :
  exec_all (map Insert bs) s
  = mkStore (table s ++ store_rows (List.concat bs) (next_id s))%list
      (next_id s + Z.of_nat (List.length (List.concat bs))).
Proof.
  unfold exec_all. revert s. induction bs as [|b t IH]; intros s.
  - cbn. rewrite app_nil_r, Z.add_0_r. destruct s; reflexivity.
  - cbn [map fold_left List.concat]. rewrite IH. cbn [exec table next_id].
    rewrite store_rows_app, length_app, <- app_assoc. f_equal. lia.
Qed.

(** The rows [save_data]'s delete leaves in the store. *)
Lemma delete_survivors (s : store) :
  exec s (DeleteNeq "wo" "___never___")
  = mkStore (filter (fun r => negb (deleted_by_save r)) (table s)) (next_id s).
Proof. reflexivity. Qed.

(** The store after [save_data] of an empty table. *)
Lemma run_save_empty (df : DataFrame) (label : option string) (s : store) :
  df_empty df = true ->
  run_save df label s
  = mkStore (filter (fun r => negb (deleted_by_save r)) (table s)) (next_id s).
Proof.
  intros He. unfold run_save, save_data. rewrite He. reflexivity.
Qed.

(** The store after [save_data] of a table whose rows map to [ps]. *)
Lemma run_save_rows (df : DataFrame) (label : option string) (s : store)
  (ps : list payload) :
  df_empty df = false ->
  mapM (to_payload (columns df) label) (rows df) = Some ps ->
  table (run_save df label s)
  = (filter (fun r => negb (deleted_by_save r)) (table s)
     ++ store_rows ps (next_id s))%list.
Proof.
  intros He Hm. unfold run_save, save_data. rewrite He, Hm.
  cbn [fst]. unfold exec_all. cbn [fold_left].
  fold (exec_all (map Insert (batches ps))
          (exec s (DeleteNeq "wo" "___never___"))).
  rewrite exec_all_inserts, batches_concat. reflexivity.
Qed.

(** The store after a [save_data] that raises while mapping the rows. *)
Lemma run_save_raised (df : DataFrame) (label : option string) (s : store) :
  df_empty df = false ->
  mapM (to_payload (columns df) label) (rows df) = None ->
  run_save df label s
  = mkStore (filter (fun r => negb (deleted_by_save r)) (table s)) (next_id s).
Proof.
  intros He Hm. unfold run_save, save_data. rewrite He, Hm. reflexivity.
Qed.

(** Whatever is saved, the delete comes first and spares the rows its filter
    does not select. *)
Lemma run_save_spares (df : DataFrame) (label : option string) (s : store)
  (r : stored_row) :
  In r (table s) -> deleted_by_save r = false ->
  In r (table (run_save df label s)).
Proof.
  intros Hin Hd.
  assert (Hf : In r (filter (fun r => negb (deleted_by_save r)) (table s))).
  { apply filter_In. split; [exact Hin|]. rewrite Hd. reflexivity. }
  destruct (df_empty df) eqn:He.
  - rewrite run_save_empty by exact He. exact Hf.
  - destruct (mapM (to_payload (columns df) label) (rows df)) as [ps|] eqn:Hm.
    + rewrite (run_save_rows _ _ _ _ He Hm). apply in_or_app. left. exact Hf.
    + rewrite run_save_raised by assumption. exact Hf.
Qed.

Lemma filter_drops_all {A : Type} (p : A -> bool) (l : list A) :
  (forall x, In x l -> p x = false) -> filter p l = [].
Proof.
  induction l as [|a t IH]; intros H; [reflexivity|].
  cbn [filter]. rewrite (H a) by (left; reflexivity).
  apply IH. intros x Hx. apply H. right. exact Hx.
Qed.

(** On a store all of whose rows the delete selects, [save_data] of an empty
    table leaves no row, and [load_data] then gives the empty canonical
    table and no label. *)
Lemma save_empty_then_load (df : DataFrame) (label : option string)
  (s : store) :
  df_empty df = true ->
  (forall r, In r (table s) -> deleted_by_save r = true) ->
  table (run_save df label s) = [] /\
  load_data (run_save df label s) = Some (mkDF REQUIRED_COLS [], VNone).
Proof.
  intros He Hall. rewrite run_save_empty by exact He.
  assert (E : filter (fun r => negb (deleted_by_save r)) (table s) = []).
  { apply filter_drops_all. intros r Hr. rewrite (Hall r Hr). reflexivity. }
  cbn [table]. split; [exact E|].
  apply load_data_empty. cbn [table]. exact E.
Qed.

End SaveFacts.

(** ** Round trip *)

Section RoundTrip.

Context {R : PyRuntime} {L : PyRuntimeLaws R}.

Local Abbreviation val := (value pyfloat).

(** The rows [normalize_df] leaves unchanged. *)
Lemma fixed_row_shape (r : list val) :
  List.length r = 8 -> norm_row r = r ->
  exists w q po st cn md sd pr,
    r = [VStr w; VStr q; VStr po; VStr st; VStr cn; VStr md; sd; pr] /\
    PyStr.strip w = w /\
    (sd = VNaT \/
     exists d, sd = VDate d /\ to_datetime (VDate d) = Some (Cal.midnight d)) /\
    (pr = VNA \/ exists f, pr = VFloat f).
Proof.
  intros Hlen H. do 9 (destruct r as [|? r]; try discriminate Hlen).
  cbn [norm_row] in H. rewrite !fill_str_text in H.
  injection H as Hw Hq Hpo Hst Hcn Hmd Hsd Hpr.
  exists (PyStr.strip (py_str v)), (field_text v0), (field_text v1),
    (field_text v2), (field_text v3), (field_text v4), v5, v6.
  split; [unfold str_strip in Hw; congruence|].
  split; [apply PyStrFacts.strip_idem|].
  split; [apply parse_date_fixed, Hsd | apply parse_price_fixed, Hpr].
Qed.

(** The date text [save_data] writes is read back by [load_data]. *)
Lemma parse_date_iso (d : Cal.date) :
  to_datetime (VDate d) = Some (Cal.midnight d) ->
  parse_date (VStr (Cal.isoformat d) : val) = VDate d.
Proof.
  intros H. rewrite parse_date_lenient; try reflexivity.
  - unfold lenient_date. rewrite (to_datetime_of_iso _ H). reflexivity.
  - apply isoformat_not_missing.
Qed.

Lemma nan_is_read :
  exists n, float_of_str "nan" = Some n /\ float_isnan n = true.
Proof. exact float_of_str_nan. Qed.

Lemma loaded_missing_not_number (numeric : bool) :
  price_is_number (loaded_missing numeric) = false.
Proof.
  unfold loaded_missing. destruct numeric; [|reflexivity].
  destruct nan_is_read as (n & -> & Hn). cbn. rewrite Hn. reflexivity.
Qed.

(** A normalised row maps to a payload that has a price exactly when the
    row has a number, and that loads back as that row, its price apart when
    it is not a number: it comes back as the nulls of the response do. *)
Lemma round_trip_row (label : option string) (r : list val) :
  List.length r = 8 -> norm_row r = r ->
  exists p,
    to_payload REQUIRED_COLS label r = Some p /\
    p_uploaded_name p = label_or_empty label /\
    match p_price p with Some _ => true | None => false end
    = price_is_number (row_get_default REQUIRED_COLS r "Price" VNone) /\
    forall numeric i,
      load_row numeric (store_row p i) = reload_row numeric r.
Proof.
  intros Hlen Hfix.
  destruct (fixed_row_shape _ Hlen Hfix)
    as (w & q & po & st & cn & md & sd & pr & -> & Hw & Hsd & Hpr).
  change (row_get_default REQUIRED_COLS _ "Price" VNone) with pr.
  unfold to_payload.
  change (row_get_default REQUIRED_COLS _ "Scheduled Date" VNaT) with sd.
  change (row_get_default REQUIRED_COLS _ "Price" VNone) with pr.
  cbv beta zeta.
  change (row_get_default REQUIRED_COLS _ "WO" (VStr "")) with (VStr w : val).
  change (row_get_default REQUIRED_COLS _ "Quote" (VStr ""))
    with (VStr q : val).
  change (row_get_default REQUIRED_COLS _ "PO Number" (VStr ""))
    with (VStr po : val).
  change (row_get_default REQUIRED_COLS _ "Status" (VStr ""))
    with (VStr st : val).
  change (row_get_default REQUIRED_COLS _ "Customer Name" (VStr ""))
    with (VStr cn : val).
  change (row_get_default REQUIRED_COLS _ "Model Description" (VStr ""))
    with (VStr md : val).
  cbn [py_str]. rewrite Hw. unfold reload_row. cbn [upd].
  unfold reload_price.
  destruct Hsd as [-> | (d & -> & Hd)];
    destruct Hpr as [-> | (f & ->)];
    cbn [price_is_number isna is_none negb andb py_isoformat py_float
         option_map bind];
    try destruct (float_isnan f);
    cbn [negb bind option_map];
    (eexists; split; [reflexivity|]; split; [reflexivity|];
     split; [reflexivity|]);
    intros numeric i; unfold load_row, store_row;
    cbn [wo quote po_number status customer_name model_description
         scheduled_date price p_wo p_quote p_po_number p_status
         p_customer_name p_model_description p_scheduled_date p_price
         opt_str];
    rewrite ?parse_date_iso by exact Hd; reflexivity.
Qed.

(** The rows of a normalised table map to payloads, of which some has a
    price exactly when some row has a number, and which load back as the
    rows reloaded. *)
Lemma round_trip_rows (label : option string) (rs : list (list val)) :
  rows_of_width 8 rs -> (forall r, In r rs -> norm_row r = r) ->
  exists ps,
    mapM (to_payload REQUIRED_COLS label) rs = Some ps /\
    (forall numeric i,
       map (load_row numeric) (store_rows ps i)
       = map (reload_row numeric) rs) /\
    (forall i, has_price (store_rows ps i)
               = has_number (mkDF REQUIRED_COLS rs)) /\
    (forall p, In p ps -> p_uploaded_name p = label_or_empty label).
Proof.
  unfold has_number, has_price. cbn [columns rows].
  induction rs as [|r t IH]; intros Hw Hfix.
  - exists []. split; [reflexivity|].
    split; [intros numeric i; reflexivity|].
    split; [intros i; reflexivity | intros p []].
  - inversion Hw as [|? ? Hlen Hw']; subst.
    destruct (round_trip_row label r Hlen (Hfix r (or_introl eq_refl)))
      as (p & Hp & Hl & Hnum & Hload).
    destruct (IH Hw' (fun x Hx => Hfix x (or_intror Hx)))
      as (ps & Hps & Hloads & Hhas & Hls).
    exists (p :: ps). cbn [mapM]. rewrite Hp, Hps. cbn [bind].
    split; [reflexivity|]. split; [|split].
    + intros numeric i. cbn [store_rows map].
      rewrite Hload, Hloads. reflexivity.
    + intros i. cbn [store_rows existsb store_row price].
      rewrite Hhas, Hnum. reflexivity.
    + intros p' [<-|Hin]; [exact Hl | apply Hls, Hin].
Qed.

(** A fixed point of [normalize_df] is a canonical frame of normalised
    rows. *)
Lemma normalize_fixed_shape (T : DataFrame) :
  normalize_df T = Some T ->
  exists rs, T = mkDF REQUIRED_COLS rs /\ rows_of_width 8 rs /\
             (forall r, In r rs -> norm_row r = r).
Proof.
  intros H. rewrite normalize_df_rows in H.
  destruct (select_cols REQUIRED_COLS T) as [sel|] eqn:E; [|discriminate].
  cbn [bind] in H. injection H as H.
  destruct (select_cols_shape _ _ _ E) as (_ & Hw & _). cbn in Hw.
  exists (map norm_row (rows sel)). split; [symmetry; exact H|].
  split; [apply rows_of_width_norm, Hw|].
  intros r Hr. apply in_map_iff in Hr. destruct Hr as (r0 & <- & _).
  apply norm_row_idem.
Qed.

(** [save_data] does not raise on a table [normalize_df] returns: every row
    maps to a payload. *)
Lemma to_payload_normalized (label : option string) (r : list val) :
  List.length r = 8 -> norm_row r = r ->
  exists p, to_payload REQUIRED_COLS label r = Some p.
Proof.
  intros Hlen Hfix.
  destruct (fixed_row_shape _ Hlen Hfix)
    as (w & q & po & st & cn & md & sd & pr & -> & Hw & Hsd & Hpr).
  unfold to_payload.
  change (row_get_default REQUIRED_COLS _ "Scheduled Date" VNaT) with sd.
  change (row_get_default REQUIRED_COLS _ "Price" VNone) with pr.
  cbv beta zeta.
  destruct Hsd as [-> | (d & -> & Hd)];
    destruct Hpr as [-> | (f & ->)];
    cbn [isna is_none negb andb py_isoformat py_float option_map bind];
    try destruct (float_isnan f);
    cbn [negb bind option_map]; eexists; reflexivity.
Qed.

Lemma normalized_rows_map (T : DataFrame) (label : option string) :
  normalize_df T = Some T ->
  exists ps, mapM (to_payload (columns T) label) (rows T) = Some ps.
Proof.
  intros Hfix.
  destruct (normalize_fixed_shape _ Hfix) as (rs & -> & Hw & Hrows).
  cbn [columns rows]. apply mapM_total. intros r Hr.
  apply to_payload_normalized; [|apply Hrows, Hr].
  unfold rows_of_width in Hw. rewrite Forall_forall in Hw. apply Hw, Hr.
Qed.

(** The round trip of a fixed point of [normalize_df], on a store the delete
    empties: the table comes back reloaded. *)
Lemma round_trip_reloaded (T : DataFrame) (label : option string)
  (s : store) :
  normalize_df T = Some T -> deletable s ->
  load_data (run_save T label s) = Some (reloaded T, saved_label T label).
Proof.
  intros Hfix Hs.
  destruct (normalize_fixed_shape _ Hfix) as (rs & -> & Hw & Hrows).
  destruct rs as [|r t].
  - apply save_empty_then_load; [reflexivity | exact Hs].
  - destruct (round_trip_rows label _ Hw Hrows)
      as (ps & Hps & Hload & Hhas & Hl).
    assert (He : df_empty (mkDF REQUIRED_COLS (r :: t)) = false)
      by reflexivity.
    pose proof (run_save_rows _ label s ps He Hps) as Ht.
    rewrite filter_drops_all in Ht
      by (intros x Hx; rewrite (Hs x Hx); reflexivity).
    cbn [app] in Ht.
    destruct ps as [|p ps'].
    { apply mapM_length in Hps. discriminate Hps. }
    cbn [store_rows] in Ht. erewrite load_data_rows by exact Ht.
    change (store_row p (next_id s) :: store_rows ps' (next_id s + 1))
      with (store_rows (p :: ps') (next_id s)).
    unfold loaded_rows, reloaded. rewrite Hhas, Hload.
    unfold saved_label.
    cbn [rows store_rows store_row uploaded_name opt_str].
    rewrite (Hl p) by (left; reflexivity). reflexivity.
Qed.

(** A reloaded price is the price itself when the missing prices are
    settled. *)
Lemma reload_price_settled (numeric : bool) (x : val) :
  nan_unique -> (x = VNA \/ exists f, x = VFloat f) ->
  price_is_number x
  || (if numeric then price_is_nan x else negb (price_is_nan x)) = true ->
  reload_price numeric x = x.
Proof.
  intros Hu Hx H. unfold reload_price.
  destruct (price_is_number x) eqn:En; [reflexivity|].
  cbn [orb] in H. unfold loaded_missing.
  destruct numeric.
  - destruct Hx as [-> | (f & ->)]; [discriminate H|].
    cbn in H. destruct nan_is_read as (n & -> & Hn).
    f_equal. apply Hu; assumption.
  - destruct Hx as [-> | (f & ->)]; [reflexivity|].
    cbn in En, H. destruct (float_isnan f); discriminate.
Qed.

End RoundTrip.

Section SyncClaims.

Context {R : PyRuntime}.

Local Abbreviation val := (value pyfloat).

(** C6. [save_data] does not delete every row: its delete selects the rows
    whose [wo] differs from "___never___", so a row whose [wo] is that text,
    or is null, is still in the store after [save_data], whatever table is
    saved.  Such a row is one [save_data] itself writes, for an order whose
    WO is that text. *)
Theorem save_spares_sentinel_row :
  run_save sentinel_table (Some "book.xlsx") (mkStore [] 1)
  = mkStore [sentinel_row] 2 /\
  forall (df : DataFrame) (label : option string),
    In sentinel_row
      (table (run_save df label (mkStore [sentinel_row; null_key_row] 3))) /\
    In null_key_row
      (table (run_save df label (mkStore [sentinel_row; null_key_row] 3))).
Proof.
  split; [reflexivity|]. intros df label.
  split; apply run_save_spares; cbn; auto.
Qed.

(** C7. [save_data] of an empty table does not always leave the store
    empty: on the store that holds the row keyed "___never___" it sends the
    delete alone, the row stays, and [load_data] then returns a table of one
    row and the label of that row. *)
Theorem save_empty_leaves_sentinel_row (label : option string) :
  let s := run_save (mkDF REQUIRED_COLS []) label (mkStore [sentinel_row] 2) in
  save_data (mkDF REQUIRED_COLS []) label
  = ([DeleteNeq "wo" "___never___"], Returned) /\
  table s = [sentinel_row] /\
  load_data s = Some (sentinel_table, VStr "book.xlsx").
Proof.
  cbv zeta. split; [reflexivity|]. split; [reflexivity|].
  rewrite run_save_empty by reflexivity.
  erewrite load_data_rows by reflexivity. reflexivity.
Qed.

(** C8. [load_data] does not coerce WO: a stored row whose [wo] is null
    loads as a row whose WO cell is None, while its other text cells are
    strings. *)
Theorem load_keeps_null_wo :
  load_data (mkStore [null_key_row] 3)
  = Some (mkDF REQUIRED_COLS
            [[VNone; VStr "Q7"; VStr ""; VStr "open"; VStr "Acme";
              VStr "pump"; VNaT; VNA]],
          VStr "book.xlsx").
Proof.
  erewrite load_data_rows by reflexivity. reflexivity.
Qed.

(** The text cells [load_data] does coerce: in every loaded table, the cells
    under Quote, PO Number, Status, Customer Name and Model Description are
    strings; the WO cell is the stored key, a string unless it is null. *)
Lemma load_text_cells (s : store) (T : DataFrame) (l : val) (r : list val) :
  load_data s = Some (T, l) -> In r (rows T) ->
  columns T = REQUIRED_COLS /\
  (forall c, In c TEXT_COLS -> exists t, row_get (columns T) r c = Some (VStr t))
  /\ (exists k, row_get (columns T) r "WO" = Some (opt_str k)).
Proof.
  intros H Hr. destruct (table s) as [|r0 rest] eqn:E.
  - rewrite (load_data_empty _ E) in H. injection H as <- _. destruct Hr.
  - rewrite (load_data_rows _ _ _ E) in H. injection H as <- _.
    cbn [rows columns] in *. split; [reflexivity|].
    unfold loaded_rows in Hr.
    apply in_map_iff in Hr. destruct Hr as (x & <- & _).
    unfold load_row. rewrite !fill_str_text. split.
    + intros c Hc. cbn in Hc.
      destruct Hc as [<-|[<-|[<-|[<-|[<-|[]]]]]]; eexists; reflexivity.
    + eexists. reflexivity.
Qed.

Context {L : PyRuntimeLaws R}.

(** C1 (amended). Round trip: let T be a fixed point of [normalize_df]
    whose missing prices are written the way [load_data] returns them (NaN
    when some row of T has a number, NA when none has; so any T without a
    missing price), and let the store hold only rows the delete of
    [save_data] selects.  Then [save_data] of T followed by [load_data]
    returns T, with all eight canonical columns, and with the label saved
    (none when T has no row).  NaN is taken to be one float. *)
Theorem save_load_round_trip (T : DataFrame) (label : option string)
  (s : store) :
  nan_unique ->
  normalize_df T = Some T ->
  missing_prices_settled T = true ->
  (forall r, In r (table s) -> deleted_by_save r = true) ->
  load_data (run_save T label s) = Some (T, saved_label T label).
Proof.
  intros Hu Hfix Hset Hdel.
  rewrite (round_trip_reloaded T label s Hfix Hdel). do 2 f_equal.
  destruct (normalize_fixed_shape _ Hfix) as (rs & -> & Hw & Hrows).
  unfold reloaded. cbn [rows]. f_equal.
  transitivity (map (fun x : list val => x) rs); [|apply map_id].
  apply map_ext_in. intros r Hr.
  unfold missing_prices_settled in Hset. cbn [columns rows] in Hset.
  rewrite forallb_forall in Hset. specialize (Hset r Hr). cbv zeta in Hset.
  unfold rows_of_width in Hw. rewrite Forall_forall in Hw.
  destruct (fixed_row_shape r (Hw r Hr) (Hrows r Hr))
    as (w & q & po & st & cn & md & sd & pr & -> & _ & _ & Hpr).
  change (row_get_default REQUIRED_COLS _ "Price" VNone) with pr in Hset.
  unfold reload_row. cbn [upd].
  rewrite (reload_price_settled _ pr Hu Hpr Hset). reflexivity.
Qed.

End SyncClaims.

(** ** The small runtime meets the assumptions *)

Module SmallRuntimeFacts.
Import SmallRuntime.

Lemma uint_text_digits (d : Decimal.uint) :
  PyStr.all_chars is_digit (NilEmpty.string_of_uint d) = true.
Proof. induction d; cbn; auto. Qed.

Lemma uint_text (d : Decimal.uint) :
  exists c r, NilZero.string_of_uint d = String c r /\
              PyStr.all_chars is_digit (String c r) = true.
Proof.
  destruct d;
    [ exists "0"%char, ""; split; reflexivity
    | eexists; eexists; split;
      [ reflexivity
      | cbn [PyStr.all_chars]; rewrite uint_text_digits; reflexivity ] .. ].
Qed.

Lemma uint_text_read (d : Decimal.uint) :
  option_map N.of_uint (NilZero.uint_of_string (NilZero.string_of_uint d))
  = Some (N.of_uint d).
Proof.
  destruct d; try (rewrite NilZero.usu by discriminate; reflexivity).
  reflexivity.
Qed.

Lemma split_at_dot (a b : string) :
  PyStr.all_chars is_digit a = true ->
  split_at "." (a ++ String "." b) = (a, Some b).
Proof.
  induction a as [|c r IH]; intros H; [reflexivity|].
  cbn in H. apply andb_true_iff in H. destruct H as [Hc Hr].
  cbn [append split_at]. rewrite (IH Hr).
  destruct (Ascii.eqb_spec c ".") as [->|_]; [discriminate Hc | reflexivity].
Qed.

Lemma digit_val_digit (n : nat) :
  digit_val (Cal.digit n) = Some (N.of_nat (n mod 10)).
Proof.
  assert (H : n mod 10 < 10) by (apply Nat.mod_upper_bound; lia).
  unfold Cal.digit. remember (n mod 10) as k.
  do 10 (destruct k as [|k]; [reflexivity|]). lia.
Qed.

Lemma digit_val_of_N (k : N) :
  (k < 10)%N -> digit_val (Cal.digit (N.to_nat k)) = Some k.
Proof.
  intros H. rewrite digit_val_digit.
  rewrite Nat.mod_small by lia. rewrite N2Nat.id. reflexivity.
Qed.

Lemma read_fraction_pad (m : N) :
  (m < 100)%N -> read_fraction (Some (Cal.padN 2 m)) = Some m.
Proof.
  intros H. cbn [Cal.padN append read_fraction].
  assert (H10 : (m / 10 < 10)%N) by (apply N.Div0.div_lt_upper_bound; lia).
  rewrite (N.mod_small (m / 10) 10) by exact H10.
  rewrite !digit_val_of_N by (exact H10 || (apply N.mod_lt; lia)).
  cbn [bind]. f_equal. pose proof (N.div_mod m 10). lia.
Qed.

Lemma read_unsigned_text (c : N) :
  read_unsigned
    (NilZero.string_of_uint (N.to_uint (c / 100))
     ++ String "." (Cal.padN 2 (c mod 100)))
  = Some c.
Proof.
  unfold read_unsigned.
  destruct (uint_text (N.to_uint (c / 100))) as (a & t & E & Hd).
  rewrite split_at_dot by (rewrite E; exact Hd).
  pose proof (uint_text_read (N.to_uint (c / 100))) as Hu.
  destruct (NilZero.uint_of_string _) as [u|]; [|discriminate Hu].
  cbn [option_map] in Hu. injection Hu as Hu. cbn [bind].
  rewrite read_fraction_pad by (apply N.mod_lt; lia). cbn [bind].
  rewrite Hu, DecimalN.Unsigned.of_to. f_equal.
  pose proof (N.div_mod c 100). lia.
Qed.

Lemma cfloat_of_str_unsigned (a : ascii) (t : string) :
  is_digit a = true ->
  cfloat_of_str (String a t)
  = option_map (CFin false) (read_unsigned (String a t)).
Proof.
  destruct a as [[] [] [] [] [] [] [] []]; intros H;
    try discriminate H; reflexivity.
Qed.

Lemma cfloat_of_str_signed (a : ascii) (t : string) :
  is_digit a = true ->
  cfloat_of_str (String "-" (String a t))
  = option_map (CFin true) (read_unsigned (String a t)).
Proof.
  destruct a as [[] [] [] [] [] [] [] []]; intros H;
    try discriminate H; reflexivity.
Qed.

Lemma cfloat_round_trip (f : cfloat) :
  cfloat_of_str (str_of_cfloat f) = Some f.
Proof.
  destruct f as [|[]|neg c]; try reflexivity.
  pose proof (read_unsigned_text c) as Hr.
  unfold str_of_cfloat.
  destruct (uint_text (N.to_uint (c / 100))) as (a & t & E & Hd).
  rewrite E in *. cbn [PyStr.all_chars] in Hd.
  apply andb_true_iff in Hd. destruct Hd as [Ha _].
  destruct neg; cbn [sign_text append] in *.
  - rewrite cfloat_of_str_signed by exact Ha. rewrite Hr. reflexivity.
  - rewrite cfloat_of_str_unsigned by exact Ha. rewrite Hr. reflexivity.
Qed.

Lemma all_chars_app (p : ascii -> bool) (a b : string) :
  PyStr.all_chars p (a ++ b)
  = PyStr.all_chars p a && PyStr.all_chars p b.
Proof.
  induction a as [|c r IH]; [reflexivity|].
  cbn [append PyStr.all_chars]. rewrite IH, andb_assoc. reflexivity.
Qed.

Lemma digit_repr_char (c : ascii) : is_digit c = true -> is_repr_char c = true.
Proof.
  destruct c as [[] [] [] [] [] [] [] []]; intros H;
    try discriminate H; reflexivity.
Qed.

Lemma digit_is_digit (n : nat) : is_digit (Cal.digit n) = true.
Proof. unfold is_digit. rewrite digit_val_digit. reflexivity. Qed.

Lemma cfloat_text_chars (f : cfloat) :
  PyStr.all_chars is_repr_char (str_of_cfloat f) = true.
Proof.
  destruct f as [|[]|neg c]; try reflexivity.
  assert (Hu : PyStr.all_chars is_repr_char
                 (NilZero.string_of_uint (N.to_uint (c / 100))) = true).
  { apply (PyStrFacts.all_chars_impl is_digit); [exact digit_repr_char|].
    destruct (uint_text (N.to_uint (c / 100))) as (a & t & -> & Hd).
    exact Hd. }
  unfold str_of_cfloat. rewrite !all_chars_app, Hu.
  cbn [PyStr.all_chars Cal.padN append].
  rewrite !(digit_repr_char _ (digit_is_digit _)).
  destruct neg; reflexivity.
Qed.

Lemma cfloat_text_nonempty (f : cfloat) : str_of_cfloat f <> "".
Proof.
  destruct f as [|[]|neg c]; try discriminate.
  unfold str_of_cfloat.
  destruct (uint_text (N.to_uint (c / 100))) as (a & t & -> & _).
  destruct neg; discriminate.
Qed.

Lemma digit_nat_digit (n : nat) : digit_nat (Cal.digit n) = Some (n mod 10).
Proof.
  unfold digit_nat. rewrite digit_val_digit. cbn [option_map].
  rewrite Nat2N.id. reflexivity.
Qed.

Lemma four_digits (y : nat) :
  y < 5000 ->
  10 * (10 * (10 * (10 * 0 + (y / 1000) mod 10) + (y / 100) mod 10)
        + (y / 10) mod 10) + y mod 10 = y.
Proof.
  intros H.
  replace (y / 1000) with (y / 10 / 10 / 10)
    by (rewrite !Nat.Div0.div_div; reflexivity).
  replace (y / 100) with (y / 10 / 10)
    by (rewrite !Nat.Div0.div_div; reflexivity).
  pose proof (Nat.div_mod_eq y 10).
  pose proof (Nat.div_mod_eq (y / 10) 10).
  pose proof (Nat.div_mod_eq (y / 10 / 10) 10).
  assert (y / 10 / 10 / 10 < 10)
    by (rewrite !Nat.Div0.div_div; apply Nat.Div0.div_lt_upper_bound; lia).
  rewrite (Nat.mod_small (y / 10 / 10 / 10) 10) by assumption.
  lia.
Qed.

Lemma two_digits (m : nat) :
  m < 100 -> 10 * (10 * 0 + (m / 10) mod 10) + m mod 10 = m.
Proof.
  intros H. pose proof (Nat.div_mod_eq m 10).
  assert (m / 10 < 10) by (apply Nat.Div0.div_lt_upper_bound; lia).
  rewrite (Nat.mod_small (m / 10) 10) by assumption. lia.
Qed.

Lemma read_iso_chars (y1 y2 y3 y4 m1 m2 d1 d2 : ascii) :
  read_iso_date
    (String y1 (String y2 (String y3 (String y4 (String "-"
       (String m1 (String m2 (String "-" (String d1 (String d2 ""))))))))))
  = (y <- read_digits (String y1 (String y2 (String y3 (String y4 "")))) 0 ;;
     m <- read_digits (String m1 (String m2 "")) 0 ;;
     d <- read_digits (String d1 (String d2 "")) 0 ;;
     Some (Cal.mkDate y m d)).
Proof. reflexivity. Qed.

(** The ISO text of a valid date reads back as that date. *)
Lemma read_isoformat (d : Cal.date) :
  valid_date d = true -> read_iso_date (Cal.isoformat d) = Some d.
Proof.
  intros H. unfold valid_date in H.
  repeat (apply andb_true_iff in H; destruct H as [H ?]).
  repeat match goal with
         | E : (_ <=? _)%nat = true |- _ => apply Nat.leb_le in E
         end.
  unfold Cal.isoformat, Cal.pad4, Cal.pad2. cbn [append].
  rewrite read_iso_chars. cbn [read_digits].
  rewrite !digit_nat_digit. cbn [bind].
  rewrite four_digits by lia. rewrite !two_digits by lia.
  destruct d; reflexivity.
Qed.

Lemma digit_val_visible (c : ascii) (n : N) :
  digit_val c = Some n ->
  PyStr.is_space c = false /\ Ascii.eqb c "N" = false.
Proof.
  destruct c as [[] [] [] [] [] [] [] []]; intros H;
    try discriminate H; split; reflexivity.
Qed.

(** A text read as an ISO date is not one of the missing texts. *)
Lemma read_iso_not_missing (s : string) (d : Cal.date) :
  read_iso_date s = Some d -> missing_text s = false.
Proof.
  unfold read_iso_date. intros H.
  destruct s as [|c r]; [discriminate H|].
  destruct (negb _); [discriminate H|].
  destruct (negb _); [discriminate H|].
  change (substring 0 4 (String c r)) with (String c (substring 0 3 r)) in H.
  cbn [read_digits] in H. unfold digit_nat in H at 1.
  destruct (digit_val c) as [n|] eqn:E; [|discriminate H].
  destruct (digit_val_visible _ _ E) as [Hs Hn].
  apply head_not_missing; assumption.
Qed.

Lemma small_to_datetime_valid (v : value cfloat) (t : Cal.timestamp) :
  small_to_datetime v = Some t -> valid_date (Cal.ts_date t) = true.
Proof.
  destruct v; cbn [small_to_datetime]; try discriminate.
  - destruct (read_iso_date s) as [d|]; [|discriminate]. cbn [bind].
    destruct (valid_date d) eqn:E; [|discriminate].
    intros [= <-]. exact E.
  - destruct (valid_date d) eqn:E; [|discriminate].
    intros [= <-]. exact E.
  - destruct (valid_date (Cal.ts_date t0)) eqn:E; [|discriminate].
    intros [= <-]. exact E.
Qed.

#[export] Instance laws : PyRuntimeLaws runtime.
Proof.
  constructor.
  - exact cfloat_round_trip.
  - exact cfloat_text_chars.
  - exact cfloat_text_nonempty.
  - exists CNan. split; reflexivity.
  - reflexivity.
  - intros v t H. apply small_to_datetime_valid in H.
    cbn [to_datetime runtime small_to_datetime]. rewrite H. reflexivity.
  - intros d H. cbn [to_datetime runtime small_to_datetime] in *.
    destruct (valid_date d) eqn:E; [|discriminate H].
    rewrite read_isoformat by exact E. cbn [bind]. rewrite E. reflexivity.
Qed.

(** This runtime has one NaN. *)
Lemma small_nan_unique : nan_unique (R := runtime).
Proof.
  intros f g Hf Hg. destruct f; try discriminate Hf.
  destruct g; try discriminate Hg. reflexivity.
Qed.

(** This runtime reads no date out of a missing value. *)
Lemma small_lenient_on_missing : lenient_on_missing (R := runtime).
Proof.
  intros x H. destruct x; try reflexivity.
  - destruct H as [H|H]; [|discriminate H]. cbn [py_str] in H.
    cbn [to_datetime runtime small_to_datetime].
    destruct (read_iso_date s) as [d|] eqn:E; [|reflexivity].
    rewrite (read_iso_not_missing _ _ E) in H. discriminate H.
  - destruct H as [H|H]; [|discriminate H]. cbn [py_str] in H.
    rewrite isoformat_not_missing in H. discriminate H.
  - destruct H as [H|H]; [|discriminate H]. cbn [py_str] in H.
    rewrite timestamp_not_missing in H. discriminate H.
Qed.

End SmallRuntimeFacts.

(** ** The properties on the small runtime *)

Module OnSmallRuntime.
Import SmallRuntime Samples.

(** C1, as stated, fails: the table [nan_table] is a fixed point of
    [normalize_df], and after [save_data] on an empty store [load_data]
    returns a different table, with the null sentinel NA in place of the
    NaN price. *)
Lemma round_trip_loses_nan :
  normalize_df nan_table = Some nan_table /\
  load_data (run_save nan_table (Some "book.xlsx") (mkStore [] 1))
  = Some (nan_table_loaded, VStr "book.xlsx") /\
  nan_table_loaded <> nan_table.
Proof.
  split; [reflexivity|].
  split; [reflexivity | discriminate].
Qed.

(** C1 (amended) on [settled_table], saved over [old_store]. *)
Lemma save_load_round_trip_witness :
  nan_unique (R := runtime) /\
  normalize_df settled_table = Some settled_table /\
  missing_prices_settled settled_table = true /\
  (forall r, In r (table old_store) -> deleted_by_save r = true) /\
  load_data (run_save settled_table (Some "book.xlsx") old_store)
  = Some (settled_table, VStr "book.xlsx").
Proof.
  assert (H1 : normalize_df settled_table = Some settled_table)
    by reflexivity.
  assert (H2 : missing_prices_settled settled_table = true) by reflexivity.
  assert (H3 : forall r, In r (table old_store) -> deleted_by_save r = true)
    by (intros r [<-|[]]; reflexivity).
  split; [exact SmallRuntimeFacts.small_nan_unique|].
  split; [exact H1|]. split; [exact H2|]. split; [exact H3|].
  exact (save_load_round_trip (L := SmallRuntimeFacts.laws)
           settled_table (Some "book.xlsx") old_store
           SmallRuntimeFacts.small_nan_unique H1 H2 H3).
Defined.

(** C2 on [edited_table]. *)
Lemma apply_drops_exactly_blank_rows_witness :
  editable edited_table /\
  exists rs N M,
    select_cols REQUIRED_COLS edited_table = Some (mkDF REQUIRED_COLS rs) /\
    normalize_df edited_table = Some N /\ rows N = map norm_row rs /\
    apply_changes edited_table = Some M /\
    columns M = REQUIRED_COLS /\
    rows M = map norm_row (filter (fun r => negb (blank_row r)) rs) /\
    (forall r, In r rs -> blank_row r = false -> In (norm_row r) (rows M)).
Proof.
  assert (H : editable edited_table) by (split; reflexivity).
  split; [exact H|].
  exact (apply_drops_exactly_blank_rows edited_table H).
Defined.

(** C3 on [edited_table]. *)
Lemma normalize_idempotent_witness :
  editable edited_table /\
  (exists N, normalize_df edited_table = Some N /\ normalize_df N = Some N) /\
  (exists M, apply_changes edited_table = Some M /\ apply_changes M = Some M).
Proof.
  assert (H : editable edited_table) by (split; reflexivity).
  split; [exact H|].
  exact (normalize_idempotent (L := SmallRuntimeFacts.laws) edited_table H).
Defined.

(** C4 on the text "2024-01-15". *)
Lemma parse_date_matches_reference_witness :
  lenient_on_missing (R := runtime) /\
  parse_date (VStr "2024-01-15" : value cfloat)
  = VDate (Cal.mkDate 2024 1 15).
Proof.
  split; [exact SmallRuntimeFacts.small_lenient_on_missing|].
  destruct (parse_date_matches_reference
              SmallRuntimeFacts.small_lenient_on_missing)
    as (_ & _ & _ & _ & _ & _ & _ & _ & H).
  apply (H (Cal.midnight (Cal.mkDate 2024 1 15))); reflexivity.
Defined.

(** C5 on the texts "$1,234.50" and "garbage". *)
Lemma parse_price_matches_reference_witness :
  parse_price (VStr "$1,234.50" : value cfloat) = VFloat (CFin false 123450)
  /\ parse_price (VStr "garbage" : value cfloat) = VNA.
Proof.
  destruct (parse_price_matches_reference (R := runtime))
    as (_ & _ & _ & _ & _ & H1 & H2).
  split; [apply H1 | apply H2]; reflexivity.
Defined.

(** C10 on the NaN of the small runtime. *)
Lemma parse_price_keeps_nan_witness :
  parse_price (VFloat CNan) = VFloat CNan /\ VFloat CNan <> (VNA : value cfloat).
Proof.
  destruct (parse_price_keeps_nan (L := SmallRuntimeFacts.laws)) as [H _].
  apply (H CNan). reflexivity.
Defined.

(** C9 on [long_table]: 1001 rows go out in three batches. *)
Lemma save_batches_of_500_witness :
  df_empty long_table = false /\
  mapM (to_payload (columns long_table) (Some "book.xlsx")) (rows long_table)
  = Some (repeat long_payload 1001) /\
  exists bs,
    save_data long_table (Some "book.xlsx")
    = (DeleteNeq "wo" "___never___" :: map Insert bs, Returned) /\
    List.length bs = (List.length (rows long_table) + 499) / 500 /\
    Forall (fun b => 1 <= List.length b <= 500) bs /\
    List.concat bs = repeat long_payload 1001 /\
    List.length (repeat long_payload 1001) = List.length (rows long_table).
Proof.
  assert (H1 : df_empty long_table = false) by reflexivity.
  assert (H2 : mapM (to_payload (columns long_table) (Some "book.xlsx"))
                 (rows long_table) = Some (repeat long_payload 1001))
    by (reflexivity).
  split; [exact H1|]. split; [exact H2|].
  exact (save_batches_of_500 long_table (Some "book.xlsx") _ H1 H2).
Defined.

End OnSmallRuntime.

(** * Further properties *)

(** ** What [save_data] can map *)

Section SavableFacts.

Context {R : PyRuntime}.

Local Abbreviation val := (value pyfloat).

(** A row maps to a payload exactly when its date and price cells can be
    written. *)
Lemma to_payload_savable (cols : list string) (label : option string)
  (r : list val) :
  row_savable cols r = true <-> exists p, to_payload cols label r = Some p.
Proof.
  unfold row_savable, date_savable, price_savable, to_payload.
  set (d := row_get_default cols r "Scheduled Date" VNaT).
  set (pr := row_get_default cols r "Price" VNone).
  cbv zeta.
  destruct (isna d) eqn:Ed; cbn [negb orb andb].
  - destruct (is_none pr) eqn:En; cbn [negb orb andb bind].
    + split; [intros _; eexists; reflexivity | reflexivity].
    + destruct (isna pr) eqn:Ep; cbn [negb orb andb bind].
      * split; [intros _; eexists; reflexivity | reflexivity].
      * destruct (py_float pr); cbn [option_map bind].
        -- split; [intros _; eexists; reflexivity | reflexivity].
        -- split; [discriminate | intros [p H]; discriminate H].
  - destruct (py_isoformat d); cbn [option_map bind andb].
    + destruct (is_none pr) eqn:En; cbn [negb orb andb bind].
      * split; [intros _; eexists; reflexivity | reflexivity].
      * destruct (isna pr) eqn:Ep; cbn [negb orb andb bind].
        -- split; [intros _; eexists; reflexivity | reflexivity].
        -- destruct (py_float pr); cbn [option_map bind].
           ++ split; [intros _; eexists; reflexivity | reflexivity].
           ++ split; [discriminate | intros [p H]; discriminate H].
    + split; [discriminate | intros [p H]; discriminate H].
Qed.

Lemma savable_mapM (df : DataFrame) (label : option string) :
  savable df = true <->
  exists ps, mapM (to_payload (columns df) label) (rows df) = Some ps.
Proof.
  unfold savable. split.
  - intros H. apply mapM_total. intros r Hr.
    apply to_payload_savable. rewrite forallb_forall in H. apply H, Hr.
  - intros [ps H]. apply mapM_Forall2 in H. apply forallb_forall.
    intros r Hr.
    apply (to_payload_savable (columns df) label).
    clear -H Hr. induction H as [|x y l l' Hxy _ IH]; [destruct Hr|].
    destruct Hr as [<-|Hr]; [exists y; exact Hxy | apply IH, Hr].
Qed.

Lemma not_savable_mapM (df : DataFrame) (label : option string) :
  savable df = false ->
  mapM (to_payload (columns df) label) (rows df) = None.
Proof.
  intros H. destruct (mapM _ (rows df)) as [ps|] eqn:E; [|reflexivity].
  assert (Hs : savable df = true) by (apply (savable_mapM df label); eauto).
  congruence.
Qed.

(** The rows [normalize_df] writes can be mapped. *)
Lemma norm_row_savable (r : list val) :
  List.length r = 8 -> row_savable REQUIRED_COLS (norm_row r) = true.
Proof.
  intros H. do 9 (destruct r as [|? r]; try discriminate H).
  cbn [norm_row]. unfold row_savable.
  change (row_get_default REQUIRED_COLS _ "Scheduled Date" VNaT)
    with (parse_date v5).
  change (row_get_default REQUIRED_COLS _ "Price" VNone)
    with (parse_price v6).
  destruct (parse_date_range v5) as [-> | [d ->]];
    destruct (parse_price_range v6) as [-> | [f ->]];
    unfold date_savable, price_savable; cbn [isna is_none py_isoformat py_float orb andb];
    rewrite ?orb_true_r; reflexivity.
Qed.

(** The rows [load_data] returns can be mapped. *)
Lemma load_row_savable (numeric : bool) (x : stored_row) :
  row_savable REQUIRED_COLS (load_row numeric x) = true.
Proof.
  unfold load_row, row_savable.
  change (row_get_default REQUIRED_COLS _ "Scheduled Date" VNaT)
    with (parse_date (opt_str (scheduled_date x))).
  change (row_get_default REQUIRED_COLS _ "Price" VNone)
    with (match price x with
          | Some f => VFloat f
          | None => loaded_missing numeric
          end : val).
  assert (Hp : price_savable
                 (match price x with
                  | Some f => VFloat f
                  | None => loaded_missing numeric
                  end) = true).
  { unfold price_savable, loaded_missing.
    destruct (price x); [cbn; apply orb_true_r|].
    destruct numeric; [|reflexivity].
    destruct (float_of_str "nan"); [cbn; apply orb_true_r | reflexivity]. }
  rewrite Hp, andb_true_r. unfold date_savable.
  destruct (parse_date_range (opt_str (scheduled_date x))) as [-> | [d ->]];
    reflexivity.
Qed.

Lemma savable_map {A : Type} (f : A -> list val) (rs : list A) :
  (forall r, In r rs -> row_savable REQUIRED_COLS (f r) = true) ->
  savable (mkDF REQUIRED_COLS (map f rs)) = true.
Proof.
  intros H. unfold savable. cbn [columns rows]. apply forallb_forall.
  intros r Hr. apply in_map_iff in Hr. destruct Hr as (x & <- & Hx).
  apply H, Hx.
Qed.

(** [load_data] never raises: it gives the canonical frame of the rows read
    one by one, and the label of the first. *)
Lemma load_data_total (s : store) :
  load_data s
  = Some (mkDF REQUIRED_COLS (loaded_rows (table s)),
          match table s with
          | [] => VNone
          | r0 :: _ => opt_str (uploaded_name r0)
          end).
Proof.
  destruct (table s) as [|r0 rest] eqn:E.
  - apply load_data_empty, E.
  - apply load_data_rows, E.
Qed.

End SavableFacts.

(** ** Normalisation: errors and the shape of the result *)

Section NormalizeExtras.

Context {R : PyRuntime}.

Local Abbreviation val := (value pyfloat).

Lemma select_cols_missing (cs : list string) (df : DataFrame) :
  forallb (fun c => has_col c df) cs = false -> select_cols cs df = None.
Proof.
  intros H. unfold select_cols. rewrite H.
  destruct (mapM _ (rows df)); reflexivity.
Qed.

(** X1. On a table whose rows have one cell per column, [normalize_df]
    raises (KeyError) exactly when one of the eight canonical columns is
    missing, and so does the Apply handler. *)
Theorem normalize_df_key_error (df : DataFrame) :
  well_formed df = true ->
  (normalize_df df = None <->
   forallb (fun c => has_col c df) REQUIRED_COLS = false) /\
  (apply_changes df = None <->
   forallb (fun c => has_col c df) REQUIRED_COLS = false).
Proof.
  intros Hw. rewrite normalize_df_rows, apply_changes_rows.
  destruct (forallb (fun c => has_col c df) REQUIRED_COLS) eqn:Hc.
  - destruct (select_cols_total _ _ Hw Hc) as [sel ->]. cbn [bind].
    split; split; discriminate.
  - rewrite (select_cols_missing _ _ Hc). cbn [bind].
    split; split; reflexivity.
Qed.

Lemma norm_row_typed (r : list val) :
  List.length r = 8 ->
  exists w q po st cn md sd pr,
    norm_row r = [VStr w; VStr q; VStr po; VStr st; VStr cn; VStr md; sd; pr]
    /\ PyStr.strip w = w
    /\ (sd = VNaT \/ exists d, sd = VDate d)
    /\ (pr = VNA \/ exists f, pr = VFloat f).
Proof.
  intros H. do 9 (destruct r as [|? r]; try discriminate H).
  cbn [norm_row]. rewrite !fill_str_text. unfold str_strip.
  do 8 eexists. split; [reflexivity|].
  split; [apply PyStrFacts.strip_idem|].
  split; [apply parse_date_range | apply parse_price_range].
Qed.

(** X2. Whatever the cells of the input, a table [normalize_df] returns has
    exactly the eight canonical columns, as many rows as the input, and in
    every row a trimmed text for WO, texts for the five other text fields, a
    date or NaT for Scheduled Date, and a float or NA for Price; every such
    row can be mapped by [save_data]. *)
Theorem normalize_df_output_typed (T N : DataFrame) :
  normalize_df T = Some N ->
  columns N = REQUIRED_COLS /\
  List.length (rows N) = List.length (rows T) /\
  savable N = true /\
  forall r, In r (rows N) ->
    exists w q po st cn md sd pr,
      r = [VStr w; VStr q; VStr po; VStr st; VStr cn; VStr md; sd; pr]
      /\ PyStr.strip w = w
      /\ (sd = VNaT \/ exists d, sd = VDate d)
      /\ (pr = VNA \/ exists f, pr = VFloat f).
Proof.
  intros H. rewrite normalize_df_rows in H.
  destruct (select_cols REQUIRED_COLS T) as [sel|] eqn:E; [|discriminate H].
  cbn [bind] in H. injection H as <-.
  destruct (select_cols_shape _ _ _ E) as (_ & Hw & Hlen). cbn in Hw.
  unfold rows_of_width in Hw. rewrite Forall_forall in Hw.
  cbn [columns rows]. split; [reflexivity|].
  split; [rewrite length_map; exact Hlen|].
  split.
  - apply savable_map. intros r Hr. apply norm_row_savable, Hw, Hr.
  - intros r Hr. apply in_map_iff in Hr. destruct Hr as (x & <- & Hx).
    apply norm_row_typed, Hw, Hx.
Qed.

End NormalizeExtras.

(** ** Loading and saving: shape, errors, what the page can save *)

Section SyncExtras.

Context {R : PyRuntime}.

Local Abbreviation val := (value pyfloat).

(** X3. [load_data] never raises.  For every store it returns the table of
    the eight canonical columns with one row per stored row, in the order of
    the store, each made of the stored key as it is, the five other texts
    with nulls turned into the empty text, the date read by [parse_date] and
    the price, a null price being NaN when some stored row has a price and
    NA when none has; the label is that of the first stored row (none for
    an empty store), and the table can be mapped by [save_data]. *)
Theorem load_data_returns_every_row (s : store) :
  exists T l,
    load_data s = Some (T, l) /\
    columns T = REQUIRED_COLS /\
    rows T = map (load_row (has_price (table s))) (table s) /\
    List.length (rows T) = List.length (table s) /\
    l = match table s with
        | [] => VNone
        | r0 :: _ => opt_str (uploaded_name r0)
        end /\
    savable T = true.
Proof.
  eexists. eexists. split; [apply load_data_total|].
  unfold loaded_rows. cbn [columns rows].
  split; [reflexivity|]. split; [reflexivity|].
  split; [apply length_map|]. split; [reflexivity|].
  apply savable_map. intros r _. apply load_row_savable.
Qed.

(** X4. On a table with rows and columns, [save_data] returns when every
    row can be mapped, and raises otherwise; when it raises, the delete has
    been sent and no insert: the store has lost every row the delete
    selects, and has received none. *)
Theorem save_data_raises_after_delete (df : DataFrame)
  (label : option string) (s : store) :
  df_empty df = false ->
  (savable df = true -> snd (save_data df label) = Returned) /\
  (savable df = false ->
     save_data df label = ([DeleteNeq "wo" "___never___"], Raised) /\
     table (run_save df label s)
     = filter (fun r => negb (deleted_by_save r)) (table s)).
Proof.
  intros He. split.
  - intros Hs. apply (savable_mapM df label) in Hs. destruct Hs as [ps Hps].
    unfold save_data. rewrite He, Hps. reflexivity.
  - intros Hs. pose proof (not_savable_mapM df label Hs) as Hm.
    split.
    + unfold save_data. rewrite He, Hm. reflexivity.
    + rewrite (run_save_raised df label s He Hm). reflexivity.
Qed.

Lemma apply_changes_shape (E M : DataFrame) :
  apply_changes E = Some M ->
  exists rs, M = mkDF REQUIRED_COLS (map norm_row rs) /\ rows_of_width 8 rs.
Proof.
  intros H. rewrite apply_changes_rows in H.
  destruct (select_cols REQUIRED_COLS E) as [sel|] eqn:Es; [|discriminate H].
  cbn [bind] in H. injection H as <-.
  destruct (select_cols_shape _ _ _ Es) as (_ & Hw & _). cbn in Hw.
  eexists. split; [reflexivity|]. apply rows_of_width_filter, Hw.
Qed.

Lemma apply_changes_savable (E M : DataFrame) :
  apply_changes E = Some M -> savable M = true.
Proof.
  intros H. destruct (apply_changes_shape _ _ H) as (rs & -> & Hw).
  apply savable_map. intros r Hr. apply norm_row_savable.
  unfold rows_of_width in Hw. rewrite Forall_forall in Hw. apply Hw, Hr.
Qed.

Lemma load_data_savable (s : store) (T : DataFrame) (l : val) :
  load_data s = Some (T, l) -> savable T = true.
Proof.
  rewrite load_data_total. intros [= <- _]. unfold loaded_rows.
  apply savable_map. intros r _. apply load_row_savable.
Qed.

Lemma savable_returns (df : DataFrame) (label : option string) :
  savable df = true -> snd (save_data df label) = Returned.
Proof.
  intros Hs. unfold save_data. destruct (df_empty df); [reflexivity|].
  apply (savable_mapM df label) in Hs. destruct Hs as [ps ->]. reflexivity.
Qed.

(** X5. [save_data] never raises on a table the page holds: one
    [load_data] returned, or one the Apply handler made. *)
Theorem save_data_returns_on_page_tables (T : DataFrame)
  (label : option string) :
  (exists s l, load_data s = Some (T, l)) \/
  (exists E, apply_changes E = Some T) ->
  snd (save_data T label) = Returned.
Proof.
  intros [(s & l & H) | (E & H)]; apply savable_returns.
  - eapply load_data_savable, H.
  - eapply apply_changes_savable, H.
Qed.

End SyncExtras.

(** ** Saving twice, saving what was loaded *)

Section SaveTwice.

Context {R : PyRuntime}.

Local Abbreviation val := (value pyfloat).

Lemma to_payload_fields (cols : list string) (label : option string)
  (r : list val) (p : payload) :
  to_payload cols label r = Some p ->
  p_wo p = PyStr.strip (py_str (row_get_default cols r "WO" (VStr ""))) /\
  p_uploaded_name p = label_or_empty label.
Proof.
  unfold to_payload. cbv zeta. intros H.
  destruct (if negb (isna _) then _ else _) as [sd|]; [|discriminate H].
  cbn [bind] in H.
  destruct (if negb (is_none _) && _ then _ else _) as [pr|];
    [|discriminate H].
  cbn [bind] in H. injection H as <-. split; reflexivity.
Qed.

Lemma length_store_rows (ps : list payload) (i : Z) :
  List.length (store_rows ps i) = List.length ps.
Proof.
  revert i. induction ps as [|p t IH]; intros i; [reflexivity|].
  cbn [store_rows List.length]. rewrite IH. reflexivity.
Qed.

Lemma In_store_rows (ps : list payload) (i : Z) (x : stored_row) :
  In x (store_rows ps i) -> exists p j, In p ps /\ x = store_row p j.
Proof.
  revert i. induction ps as [|p t IH]; intros i H; [destruct H|].
  cbn [store_rows] in H. destruct H as [<-|H].
  - exists p, i. split; [left; reflexivity | reflexivity].
  - destruct (IH _ H) as (q & j & Hq & ->). exists q, j.
    split; [right; exact Hq | reflexivity].
Qed.

Lemma mapM_In {A B : Type} (f : A -> option B) (l : list A) (l' : list B)
  (y : B) :
  mapM f l = Some l' -> In y l' -> exists x, In x l /\ f x = Some y.
Proof.
  intros H. apply mapM_Forall2 in H.
  induction H as [|a b t t' Hab _ IH]; intros Hy; [destruct Hy|].
  destruct Hy as [<-|Hy].
  - exists a. split; [left; reflexivity | exact Hab].
  - destruct (IH Hy) as (x & Hx & Hfx). exists x.
    split; [right; exact Hx | exact Hfx].
Qed.

(** Saving a table without a row keyed by the compared text, on a store the
    delete empties, leaves a store the next delete empties. *)
Lemma run_save_deletable (T : DataFrame) (label : option string)
  (s : store) :
  deletable s -> sentinel_free T = true -> deletable (run_save T label s).
Proof.
  intros Hs HT.
  assert (E : filter (fun r => negb (deleted_by_save r)) (table s) = []).
  { apply filter_drops_all. intros r Hr. rewrite (Hs r Hr). reflexivity. }
  intros x Hx. destruct (df_empty T) eqn:He.
  - rewrite run_save_empty in Hx by exact He. cbn [table] in Hx.
    rewrite E in Hx. destruct Hx.
  - destruct (mapM (to_payload (columns T) label) (rows T)) as [ps|] eqn:Hm.
    + rewrite (run_save_rows _ _ _ _ He Hm), E in Hx. cbn [app] in Hx.
      destruct (In_store_rows _ _ _ Hx) as (p & j & Hp & ->).
      destruct (mapM_In _ _ _ _ Hm Hp) as (r & Hr & Hrp).
      destruct (to_payload_fields _ _ _ _ Hrp) as [Hwo _].
      unfold sentinel_free in HT. rewrite forallb_forall in HT.
      specialize (HT r Hr). unfold deleted_by_save, matches_neq.
      cbn. rewrite Hwo. exact HT.
    + rewrite run_save_raised in Hx by assumption. cbn [table] in Hx.
      rewrite E in Hx. destruct Hx.
Qed.

(** What [load_data] returns after [save_data] of a table with rows, on a
    store the delete empties. *)
Lemma load_after_save (df : DataFrame) (label : option string) (s : store)
  (ps : list payload) :
  deletable s -> df_empty df = false ->
  mapM (to_payload (columns df) label) (rows df) = Some ps ->
  rows df <> [] ->
  load_data (run_save df label s)
  = Some (mkDF REQUIRED_COLS (loaded_rows (store_rows ps (next_id s))),
          VStr (label_or_empty label)).
Proof.
  intros Hs He Hm Hne. rewrite load_data_total.
  rewrite (run_save_rows _ _ _ _ He Hm).
  rewrite filter_drops_all
    by (intros r Hr; rewrite (Hs r Hr); reflexivity).
  cbn [app]. f_equal. f_equal.
  destruct ps as [|p t].
  - apply mapM_length in Hm. destruct (rows df); [congruence | discriminate].
  - cbn [store_rows store_row uploaded_name opt_str].
    destruct (mapM_In _ _ _ p Hm (or_introl eq_refl)) as (r & _ & Hr).
    destruct (to_payload_fields _ _ _ _ Hr) as [_ ->]. reflexivity.
Qed.

Lemma df_empty_rows (df : DataFrame) : df_empty df = false -> rows df <> [].
Proof.
  unfold df_empty. destruct (columns df), (rows df); congruence.
Qed.

(** X6. The last save wins: after two calls of [save_data], on a store the
    delete empties and with no row of the first table keyed by the text the
    delete compares with, [load_data] reports the label of the second call
    (the empty text when it has none) and one row per row of the second
    table. *)
Theorem last_save_wins (T1 T2 : DataFrame) (l1 l2 : option string)
  (s : store) :
  deletable s -> sentinel_free T1 = true ->
  df_empty T2 = false -> savable T2 = true ->
  exists T,
    load_data (run_save T2 l2 (run_save T1 l1 s))
    = Some (T, VStr (label_or_empty l2)) /\
    columns T = REQUIRED_COLS /\
    List.length (rows T) = List.length (rows T2).
Proof.
  intros Hs H1 He H2.
  apply (savable_mapM T2 l2) in H2. destruct H2 as [ps Hps].
  eexists. split.
  - apply load_after_save with (ps := ps);
      [apply run_save_deletable; assumption | exact He | exact Hps
      | apply df_empty_rows, He].
  - cbn [columns rows]. split; [reflexivity|]. unfold loaded_rows.
    rewrite length_map, length_store_rows. eapply mapM_length, Hps.
Qed.

(** X7. Saving what was loaded doubles the rows the delete does not select:
    on a store none of whose rows it selects, [save_data] of the table
    [load_data] returned keeps every row and adds one more per row. *)
Theorem load_then_save_doubles_spared_rows (s : store) (T : DataFrame)
  (l : val) (label : option string) :
  (forall r, In r (table s) -> deleted_by_save r = false) ->
  load_data s = Some (T, l) ->
  List.length (table (run_save T label s)) = 2 * List.length (table s) /\
  forall r, In r (table s) -> In r (table (run_save T label s)).
Proof.
  intros Hs Hl. split; [|intros r Hr; apply run_save_spares; auto].
  pose proof (load_data_savable _ _ _ Hl) as Hsav.
  rewrite load_data_total in Hl. injection Hl as <- _.
  assert (Hk : filter (fun r => negb (deleted_by_save r)) (table s) = table s).
  { apply filter_keeps_all. intros r Hr. rewrite (Hs r Hr). reflexivity. }
  destruct (table s) as [|r0 rest] eqn:E.
  - rewrite run_save_empty by reflexivity. cbn [table]. rewrite E.
    reflexivity.
  - set (T := mkDF REQUIRED_COLS (loaded_rows (r0 :: rest))) in *.
    apply (savable_mapM T label) in Hsav. destruct Hsav as [ps Hps].
    rewrite (run_save_rows T label s ps eq_refl Hps), E, Hk.
    rewrite length_app, length_store_rows, (mapM_length _ _ _ Hps).
    subst T. cbn [rows]. unfold loaded_rows. rewrite length_map. lia.
Qed.

End SaveTwice.

Section RoundTripExtras.

Context {R : PyRuntime} {L : PyRuntimeLaws R}.

Local Abbreviation val := (value pyfloat).

Lemma reload_price_not_number (numeric : bool) (x : val) :
  price_is_number (reload_price numeric x) = price_is_number x.
Proof.
  unfold reload_price. destruct (price_is_number x) eqn:E; [exact E|].
  apply loaded_missing_not_number.
Qed.

Lemma reload_price_idem (numeric : bool) (x : val) :
  reload_price numeric (reload_price numeric x) = reload_price numeric x.
Proof.
  unfold reload_price at 1. rewrite reload_price_not_number.
  unfold reload_price. destruct (price_is_number x); reflexivity.
Qed.

Lemma parse_price_loaded_missing (numeric : bool) :
  parse_price (loaded_missing numeric) = loaded_missing numeric.
Proof.
  unfold loaded_missing. destruct numeric; [|apply parse_price_NA].
  destruct (float_of_str "nan");
    [apply parse_price_float | apply parse_price_NA].
Qed.

(** A reloaded row of a normalised table is normalised, keeps its number
    if it has one, and reloads as itself. *)
Lemma reload_row_fixed (numeric : bool) (r : list val) :
  List.length r = 8 -> norm_row r = r ->
  List.length (reload_row numeric r) = 8 /\
  norm_row (reload_row numeric r) = reload_row numeric r /\
  reload_row numeric (reload_row numeric r) = reload_row numeric r /\
  price_is_number
    (row_get_default REQUIRED_COLS (reload_row numeric r) "Price" VNone)
  = price_is_number (row_get_default REQUIRED_COLS r "Price" VNone).
Proof.
  intros Hlen Hfix.
  destruct (fixed_row_shape _ Hlen Hfix)
    as (w & q & po & st & cn & md & sd & pr & -> & Hw & Hsd & Hpr).
  unfold reload_row. cbn [upd].
  change (row_get_default REQUIRED_COLS
            [VStr w; VStr q; VStr po; VStr st; VStr cn; VStr md; sd; pr]
            "Price" VNone) with pr.
  change (row_get_default REQUIRED_COLS _ "Price" VNone)
    with (reload_price numeric pr).
  split; [reflexivity|]. split; [|split].
  - assert (Hp : parse_price (reload_price numeric pr)
                 = reload_price numeric pr).
    { unfold reload_price. destruct (price_is_number pr).
      - cbn [norm_row] in Hfix. congruence.
      - apply parse_price_loaded_missing. }
    cbn [norm_row] in *. rewrite Hp. congruence.
  - rewrite reload_price_idem. reflexivity.
  - apply reload_price_not_number.
Qed.

Lemma has_number_reload (numeric : bool) (rs : list (list val)) :
  (forall r, In r rs -> List.length r = 8) ->
  (forall r, In r rs -> norm_row r = r) ->
  has_number (mkDF REQUIRED_COLS (map (reload_row numeric) rs))
  = has_number (mkDF REQUIRED_COLS rs).
Proof.
  unfold has_number. cbn [columns rows].
  induction rs as [|r t IH]; intros Hw Hrows; [reflexivity|].
  cbn [map existsb]. rewrite IH.
  - f_equal.
    apply reload_row_fixed;
      [apply Hw; left; reflexivity | apply Hrows; left; reflexivity].
  - intros x Hx. apply Hw. right. exact Hx.
  - intros x Hx. apply Hrows. right. exact Hx.
Qed.

Lemma has_number_reloaded (T : DataFrame) :
  normalize_df T = Some T -> has_number (reloaded T) = has_number T.
Proof.
  intros Hfix.
  destruct (normalize_fixed_shape _ Hfix) as (rs & -> & Hw & Hrows).
  unfold rows_of_width in Hw. rewrite Forall_forall in Hw.
  unfold reloaded. cbn [rows]. apply has_number_reload; assumption.
Qed.

Lemma reloaded_fixed (T : DataFrame) :
  normalize_df T = Some T ->
  normalize_df (reloaded T) = Some (reloaded T) /\
  reloaded (reloaded T) = reloaded T.
Proof.
  intros Hfix. pose proof (has_number_reloaded T Hfix) as Hh.
  destruct (normalize_fixed_shape _ Hfix) as (rs & HT & Hw & Hrows).
  unfold rows_of_width in Hw. rewrite Forall_forall in Hw.
  split.
  - unfold reloaded. apply normalize_df_fixed.
    + apply Forall_forall. intros x Hx. apply in_map_iff in Hx.
      destruct Hx as (r & <- & Hr). rewrite HT in Hr.
      apply reload_row_fixed; [apply Hw, Hr | apply Hrows, Hr].
    + intros x Hx. apply in_map_iff in Hx.
      destruct Hx as (r & <- & Hr). rewrite HT in Hr.
      apply reload_row_fixed; [apply Hw, Hr | apply Hrows, Hr].
  - unfold reloaded at 1. rewrite Hh. unfold reloaded. cbn [rows].
    f_equal. rewrite map_map. apply map_ext_in. intros r Hr.
    rewrite HT in Hr.
    apply reload_row_fixed; [apply Hw, Hr | apply Hrows, Hr].
Qed.

(** X8. Round trip with missing prices: for a fixed point T of
    [normalize_df] and a store the delete empties, [save_data] then
    [load_data] returns T with every price that is not a number (NaN or NA)
    replaced by NaN when some row of T has a number, and by NA when none
    has.  The table returned is again a fixed point of [normalize_df], and
    goes through any further round trip unchanged. *)
Theorem round_trip_rewrites_missing_prices (T : DataFrame)
  (label : option string) (s : store) :
  normalize_df T = Some T -> deletable s ->
  load_data (run_save T label s) = Some (reloaded T, saved_label T label) /\
  normalize_df (reloaded T) = Some (reloaded T) /\
  forall label' s', deletable s' ->
    load_data (run_save (reloaded T) label' s')
    = Some (reloaded T, saved_label (reloaded T) label').
Proof.
  intros Hfix Hs.
  destruct (reloaded_fixed T Hfix) as [Hfix' Hidem].
  split; [apply round_trip_reloaded; assumption|].
  split; [exact Hfix'|].
  intros label' s' Hs'.
  rewrite (round_trip_reloaded (reloaded T) label' s' Hfix' Hs').
  rewrite Hidem. reflexivity.
Qed.

(** The text of a missing value is not blank. *)
Lemma missing_text_visible (x : val) :
  isna x = true -> blank (py_str x) = false.
Proof.
  destruct x; try discriminate; try reflexivity.
  intros _. cbn [py_str]. unfold blank.
  destruct (PyStr.all_chars PyStr.is_space (str_of_float f)) eqn:E;
    [|reflexivity].
  apply PyStrFacts.strip_blank in E. rewrite repr_strip in E.
  exfalso. exact (str_of_float_nonempty _ E).
Qed.

(** X14. A row whose WO cell is missing is never dropped by the Apply
    handler: [normalize_df] writes the text of the missing value (None,
    <NA>, NaT or nan) as its WO, which is not blank, so the row passes the
    mask whatever its other cells. *)
Theorem missing_wo_row_is_kept (T : DataFrame) :
  editable T ->
  exists rs M,
    select_cols REQUIRED_COLS T = Some (mkDF REQUIRED_COLS rs) /\
    apply_changes T = Some M /\
    forall r, In r rs -> isna (nth 0 r VNone) = true ->
      In (norm_row r) (rows M) /\
      nth 0 (norm_row r) VNone = VStr (PyStr.strip (py_str (nth 0 r VNone))) /\
      PyStr.strip (py_str (nth 0 r VNone)) <> "".
Proof.
  intros HT. destruct (editable_select _ HT) as (rs & E & Hw & _).
  exists rs. eexists. split; [exact E|].
  rewrite apply_changes_rows, E. cbn [bind rows]. split; [reflexivity|].
  intros r Hr Hna.
  unfold rows_of_width in Hw. rewrite Forall_forall in Hw.
  specialize (Hw r Hr).
  do 9 (destruct r as [|? r]; try discriminate Hw).
  cbn [nth] in *. pose proof (missing_text_visible _ Hna) as Hb.
  split; [|split].
  - apply in_map, filter_In. split; [exact Hr|].
    cbn [blank_row]. rewrite Hb. reflexivity.
  - reflexivity.
  - intros Hs. apply PyStrFacts.strip_blank in Hs. unfold blank in Hb.
    congruence.
Qed.

End RoundTripExtras.

(** ** The sizes of the batches *)

Section BatchExtras.

Context {R : PyRuntime}.

Lemma range_iter_nth (stop step : nat) :
  forall fuel start i,
    i < List.length (range_iter fuel start stop step) ->
    nth i (range_iter fuel start stop step) 0 = start + i * step.
Proof.
  induction fuel as [|k IH]; intros start i H; cbn [range_iter] in *.
  - cbn in H. lia.
  - destruct (Nat.ltb_spec start stop) as [Hlt|Hge]; [|cbn in H; lia].
    destruct i as [|j]; cbn [nth]; [lia|].
    cbn [List.length] in H. rewrite IH by lia. lia.
Qed.

Lemma slice_length {A : Type} (l : list A) (i : nat) :
  List.length (slice l i (i + BATCH)) = Nat.min BATCH (List.length l - i).
Proof.
  rewrite slice_step, length_firstn, length_skipn. reflexivity.
Qed.

(** X15. The batches of [save_data] are cut at every 500th row: batch
    number i (from 0) holds the rows from 500 i on, 500 of them or what is
    left; so every batch but the last holds exactly 500 rows. *)
Theorem batches_are_full_but_last (ps : list payload) (i : nat) :
  i < List.length (batches ps) ->
  nth i (batches ps) [] = firstn 500 (skipn (500 * i) ps) /\
  List.length (nth i (batches ps) [])
  = Nat.min 500 (List.length ps - 500 * i) /\
  (S i < List.length (batches ps) ->
   List.length (nth i (batches ps) []) = 500).
Proof.
  intros Hi. unfold batches in *. rewrite length_map in Hi.
  set (f := fun j => slice ps j (j + BATCH)).
  assert (Hn : forall k, k < List.length (py_range 0 (List.length ps) BATCH) ->
             nth k (map f (py_range 0 (List.length ps) BATCH)) []
             = f (500 * k)).
  { intros k Hk. rewrite (nth_indep _ [] (f 0)) by (rewrite length_map; exact Hk).
    rewrite map_nth. unfold py_range in *. rewrite range_iter_nth by exact Hk.
    unfold BATCH. f_equal. lia. }
  rewrite (Hn i Hi). unfold f.
  split; [apply slice_step|]. split; [apply slice_length|].
  rewrite length_map. intros Hs. rewrite slice_length.
  assert (Hlt : 500 * S i < List.length ps).
  { pose proof (range_iter_nth (List.length ps) BATCH (List.length ps) 0 (S i)
                  Hs) as E.
    pose proof (nth_In _ 0 Hs) as Hin. unfold py_range in Hin.
    apply range_iter_lt in Hin. unfold py_range in E. rewrite E in Hin.
    unfold BATCH in Hin. lia. }
  unfold BATCH. lia.
Qed.

End BatchExtras.

(** ** The page *)

Section PageExtras.

Context {R : PyRuntime}.

Local Abbreviation val := (value pyfloat).

(** A session state with its four keys. *)
Lemma session_init_full (ss : session_state) (s : store) :
  exists df last v u,
    session_init ss s
    = Some (mkSession (Some df) (Some last) (Some v) (Some u)) /\
    (forall d, ss_df ss = Some d -> df = d) /\
    (ss_df ss = None -> df = mkDF REQUIRED_COLS (loaded_rows (table s))) /\
    v = match ss_df_version ss with Some z => z | None => 0%Z end /\
    u = match ss_has_unsaved_changes ss with Some b => b | None => false end.
Proof.
  unfold session_init. destruct ss as [[d|] l v u]; cbn [ss_df].
  - cbn [bind ss_df ss_last_uploaded_name ss_df_version
         ss_has_unsaved_changes].
    destruct l as [l|], v as [v|], u as [u|]; cbn [or_default];
      do 4 eexists; (split; [reflexivity|]);
      (split; [intros ? [= <-]; reflexivity|]);
      (split; [discriminate|]); split; reflexivity.
  - rewrite load_data_total.
    cbn [bind fst snd ss_df ss_last_uploaded_name ss_df_version
         ss_has_unsaved_changes].
    destruct v as [v|], u as [u|]; cbn [or_default];
      do 4 eexists; (split; [reflexivity|]);
      (split; [discriminate|]);
      (split; [reflexivity|]); split; reflexivity.
Qed.

(** Init changes nothing in a state that has its four keys. *)
Lemma session_init_done (df : DataFrame) (last : option string) (v : Z)
  (u : bool) (s : store) :
  session_init (mkSession (Some df) (Some last) (Some v) (Some u)) s
  = Some (mkSession (Some df) (Some last) (Some v) (Some u)).
Proof. reflexivity. Qed.

(** X9. The store is written by no run but an Update with the right
    password: when Apply is pressed, or Update is not, or the password typed
    differs from the configured one (from "admin123" when none is
    configured), the run leaves the store as it found it, however it
    ends. *)
Theorem store_written_only_by_update (secret : option string) (w : widgets)
  (ss : session_state) (s : store) :
  apply w = true \/ update_btn w = false \/
  password w <> correct_password secret ->
  store_after (page_run secret w ss s) = s.
Proof.
  intros H. unfold page_run.
  destruct (session_init_full ss s) as (df & last & v & u & -> & _).
  destruct (apply w) eqn:Ea.
  - destruct (apply_changes (edited w)); reflexivity.
  - destruct (update_btn w) eqn:Eu; [|reflexivity].
    destruct (String.eqb_spec (password w) (correct_password secret))
      as [Ep|Ep]; [|reflexivity].
    destruct H as [H|[H|H]]; [discriminate | discriminate | contradiction].
Qed.

(** X10. A wrong password changes nothing: the run goes to its end without
    a rerun, shows the error and not the success message, and leaves the
    session state (as initialised) and the store as they were; the unsaved
    flag stays. *)
Theorem wrong_password_changes_nothing (secret : option string) (w : widgets)
  (ss : session_state) (s : store) :
  apply w = false -> update_btn w = true ->
  password w <> correct_password secret ->
  exists ss0 msgs,
    session_init ss s = Some ss0 /\
    page_run secret w ss s = Completed ss0 s msgs false /\
    In ErrorPassword msgs /\ ~ In SuccessSaved msgs.
Proof.
  intros Ha Hu Hp. unfold page_run.
  destruct (session_init_full ss s) as (df & last & v & u & -> & _).
  rewrite Ha, Hu.
  destruct (String.eqb_spec (password w) (correct_password secret))
    as [Ep|_]; [contradiction|].
  eexists. eexists. split; [reflexivity|]. split; [reflexivity|].
  split; [apply in_or_app; right; left; reflexivity|].
  intros Hin. apply in_app_or in Hin. destruct Hin as [Hin|[Hin|[]]];
    [|discriminate Hin].
  unfold banners in Hin. apply in_app_or in Hin.
  destruct Hin as [Hin|Hin].
  - destruct last as [[|c r]|]; destruct Hin as [Hin|[]]; discriminate Hin.
  - destruct u; [destruct Hin as [Hin|[]]; discriminate Hin | destruct Hin].
Qed.

End PageExtras.

Section PageRuns.

Context {R : PyRuntime}.

Local Abbreviation val := (value pyfloat).

Lemma editable_apply_changes (E : DataFrame) :
  editable E -> exists M, apply_changes E = Some M /\ savable M = true.
Proof.
  intros HE. destruct (editable_select _ HE) as (rs & Es & _ & _).
  eexists. split.
  - rewrite apply_changes_rows, Es. reflexivity.
  - eapply apply_changes_savable. rewrite apply_changes_rows, Es. reflexivity.
Qed.

(** One run from a state that has its keys and holds a table that can be
    saved. *)
Lemma page_run_step (secret : option string) (w : widgets) (df : DataFrame)
  (last : option string) (v : Z) (u : bool) (s : store) :
  savable df = true -> (apply w = true -> editable (edited w)) ->
  exists df' u' s' msgs rr,
    page_run secret w (full df last v u) s
    = Completed (full df' last (v + if apply w then 1 else 0)%Z u') s' msgs rr
    /\ savable df' = true.
Proof.
  intros Hs He. unfold page_run, full. rewrite session_init_done.
  destruct (apply w) eqn:Ea.
  - destruct (editable_apply_changes _ (He eq_refl)) as (M & -> & HM).
    do 5 eexists. split; [reflexivity | exact HM].
  - rewrite Z.add_0_r. destruct (update_btn w); [|do 5 eexists; split; [reflexivity | exact Hs]].
    destruct (String.eqb (password w) (correct_password secret));
      [|do 5 eexists; split; [reflexivity | exact Hs]].
    pose proof (savable_returns df last Hs) as Hr.
    destruct (save_data df last) as [qs o]. cbn [snd] in Hr. subst o.
    do 5 eexists. split; [reflexivity | exact Hs].
Qed.

Lemma page_runs_full (secret : option string) (ws : list widgets) :
  forall (df : DataFrame) (last : option string) (v : Z) (u : bool)
         (s : store),
    savable df = true ->
    (forall w, In w ws -> apply w = true -> editable (edited w)) ->
    exists df' u' s',
      page_runs secret ws (full df last v u) s
      = Completed
          (full df' last (v + Z.of_nat (List.length (filter apply ws)))%Z u')
          s' [] false
      /\ savable df' = true.
Proof.
  induction ws as [|w rest IH]; intros df last v u s Hs He.
  - exists df, u, s. cbn. rewrite Z.add_0_r. split; [reflexivity | exact Hs].
  - destruct (page_run_step secret w df last v u s Hs
                (He w (or_introl eq_refl)))
      as (df1 & u1 & s1 & msgs & rr & Hrun & Hs1).
    destruct (IH df1 last (v + if apply w then 1 else 0)%Z u1 s1 Hs1
                (fun x Hx => He x (or_intror Hx)))
      as (df' & u' & s' & Hruns & Hs').
    exists df', u', s'. cbn [page_runs]. rewrite Hrun, Hruns.
    split; [|exact Hs'].
    assert (Hz : (v + (if apply w then 1 else 0)
                  + Z.of_nat (List.length (filter apply rest))
                  = v + Z.of_nat (List.length (filter apply (w :: rest))))%Z).
    { cbn [filter]. destruct (apply w); cbn [List.length]; lia. }
    rewrite Hz. reflexivity.
Qed.

Lemma page_run_init (secret : option string) (w : widgets)
  (ss ss0 : session_state) (s : store) (df : DataFrame)
  (last : option string) (v : Z) (u : bool) :
  session_init ss s = Some (full df last v u) ->
  page_run secret w ss s = page_run secret w (full df last v u) s.
Proof.
  intros H. unfold page_run. rewrite H. unfold full.
  rewrite session_init_done. reflexivity.
Qed.

(** X11. The page never crashes and never loses its label: from a session
    state without a table (a new session) or with a table that can be
    saved, any series of runs in which the grid returns the canonical
    columns whenever Apply is pressed runs to its end.  The session then
    holds a table that can be saved, the label found at init, and a version
    that counts the Apply presses. *)
Theorem page_runs_never_crash (secret : option string) (ws : list widgets)
  (ss : session_state) (s : store) :
  (ss_df ss = None \/ exists df, ss_df ss = Some df /\ savable df = true) ->
  (forall w, In w ws -> apply w = true -> editable (edited w)) ->
  ws <> [] ->
  exists df0 last v0 u0 df' u' s',
    session_init ss s = Some (full df0 last v0 u0) /\
    page_runs secret ws ss s
    = Completed
        (full df' last (v0 + Z.of_nat (List.length (filter apply ws)))%Z u')
        s' [] false /\
    savable df' = true.
Proof.
  intros Hss He Hne. destruct ws as [|w rest]; [congruence|].
  destruct (session_init_full ss s) as (df0 & last & v0 & u0 & Hi & Hd & Hn & _).
  assert (Hs0 : savable df0 = true).
  { destruct Hss as [H | (d & H & Hs)].
    - rewrite (Hn H). unfold loaded_rows.
      apply savable_map. intros r _. apply load_row_savable.
    - rewrite (Hd d H). exact Hs. }
  exists df0, last, v0, u0.
  destruct (page_runs_full secret (w :: rest) df0 last v0 u0 s Hs0 He)
    as (df' & u' & s' & Hruns & Hs').
  exists df', u', s'. split; [exact Hi|]. split; [|exact Hs'].
  rewrite <- Hruns. cbn [page_runs].
  rewrite (page_run_init secret w ss ss s df0 last v0 u0 Hi). reflexivity.
Qed.

(** X13. A save made without a label hides the data from the banner: after
    [save_data] of a table with rows under no label (or the empty one), on
    a store the delete empties, a new session loads the table but shows
    "No data loaded". *)
Theorem unlabelled_save_shows_no_data (secret : option string)
  (T : DataFrame) (label : option string) (s : store) :
  deletable s -> df_empty T = false -> savable T = true ->
  label_or_empty label = "" ->
  exists df,
    page_run secret (mkWidgets T false "" false) fresh_session
      (run_save T label s)
    = Completed (full df (Some "") 0%Z false) (run_save T label s)
        [WarnNoData] false /\
    List.length (rows df) = List.length (rows T) /\ rows df <> [].
Proof.
  intros Hs He HT Hl.
  apply (savable_mapM T label) in HT. destruct HT as [ps Hps].
  pose proof (load_after_save T label s ps Hs He Hps (df_empty_rows _ He))
    as Hload.
  eexists. split.
  - unfold page_run, session_init, fresh_session. cbn [ss_df].
    rewrite Hload, Hl. reflexivity.
  - cbn [rows fst].
    assert (Hlen : List.length (loaded_rows (store_rows ps (next_id s)))
                   = List.length (rows T))
      by (unfold loaded_rows; rewrite length_map, length_store_rows;
          eapply mapM_length, Hps).
    split; [exact Hlen|]. intros H. rewrite H in Hlen.
    apply df_empty_rows in He. destruct (rows T); [congruence | discriminate].
Qed.

Context {L : PyRuntimeLaws R}.

Lemma apply_changes_fixed (E M : DataFrame) :
  apply_changes E = Some M -> normalize_df M = Some M.
Proof.
  intros H. destruct (apply_changes_shape _ _ H) as (rs & -> & Hw).
  apply normalize_df_fixed; [apply rows_of_width_norm, Hw|].
  intros r Hr. apply in_map_iff in Hr. destruct Hr as (x & <- & _).
  apply norm_row_idem.
Qed.

(** X12. From the grid to the next session: in a new session on a store
    the delete empties, pressing Apply on an edited table and then Update
    with the right password leaves the applied table in the session with
    the unsaved flag cleared, and a session opened afterwards loads that
    table, its prices that are not numbers (NaN or NA) replaced by NaN when
    some row has a number and by NA when none has, under the label the
    first session found. *)
Theorem apply_update_reload (secret : option string) (E M T0 : DataFrame)
  (l0 : val) (s : store) :
  deletable s -> load_data s = Some (T0, l0) ->
  apply_changes E = Some M ->
  exists s',
    page_runs secret
      [ mkWidgets E true "" false;
        mkWidgets M false (correct_password secret) true ]
      fresh_session s
    = Completed (full M (label_of l0) 1%Z false) s' [] false /\
    session_init fresh_session s'
    = Some (full (reloaded M)
              (label_of (saved_label M (label_of l0))) 0%Z false).
Proof.
  intros Hs Hl HM.
  exists (run_save M (label_of l0) s).
  pose proof (savable_returns M (label_of l0) (apply_changes_savable _ _ HM))
    as Hr.
  split.
  - cbn [page_runs]. unfold page_run at 1, session_init, fresh_session.
    cbn [ss_df]. rewrite Hl.
    cbn [bind fst snd ss_df ss_last_uploaded_name ss_df_version
         ss_has_unsaved_changes or_default apply edited].
    rewrite HM. unfold page_run.
    cbn [session_init ss_df bind ss_last_uploaded_name ss_df_version
         ss_has_unsaved_changes or_default apply update_btn password].
    rewrite String.eqb_refl. unfold run_save.
    destruct (save_data M (label_of l0)) as [qs o]. cbn [snd fst] in *.
    subst o. reflexivity.
  - unfold session_init, fresh_session. cbn [ss_df].
    rewrite (round_trip_reloaded M (label_of l0) s
               (apply_changes_fixed _ _ HM) Hs).
    reflexivity.
Qed.

End PageRuns.

Section KeyAndGate.

Context {R : PyRuntime}.

Local Abbreviation val := (value pyfloat).

(** X16. A null key does not survive a save of the loaded table: the row
    [load_data] makes of a stored row whose [wo] is null is mapped by
    [save_data] to a payload keyed by the text "None", a row the next delete
    selects. *)
Theorem null_key_saved_as_text (numeric : bool) (x : stored_row)
  (label : option string) (i : Z) :
  wo x = None ->
  exists p,
    to_payload REQUIRED_COLS label (load_row numeric x) = Some p /\
    p_wo p = "None" /\
    wo (store_row p i) = Some "None" /\
    deleted_by_save (store_row p i) = true.
Proof.
  intros Hx.
  destruct (proj1 (to_payload_savable REQUIRED_COLS label
                     (load_row numeric x))
              (load_row_savable numeric x)) as [p Hp].
  exists p. split; [exact Hp|].
  destruct (to_payload_fields _ _ _ _ Hp) as [Hw _].
  assert (E : p_wo p = "None").
  { rewrite Hw. unfold load_row. rewrite Hx. reflexivity. }
  split; [exact E|]. split.
  - cbn. rewrite E. reflexivity.
  - unfold deleted_by_save, matches_neq. cbn. rewrite E. reflexivity.
Qed.

(** X17. Update with the right password saves the table of the session
    under the label of the session: when the table can be saved, the run
    ends with a rerun, the store is the one [save_data] leaves, the unsaved
    flag is cleared, and the table, the label and the version stay. *)
Theorem right_password_saves (secret : option string) (w : widgets)
  (df : DataFrame) (last : option string) (v : Z) (u : bool) (s : store) :
  apply w = false -> update_btn w = true ->
  password w = correct_password secret ->
  savable df = true ->
  page_run secret w (full df last v u) s
  = Completed (full df last v false) (run_save df last s)
      (banners last u ++ [SuccessSaved]) true.
Proof.
  intros Ha Hu Hp Hs. unfold page_run, full. rewrite session_init_done.
  rewrite Ha, Hu, Hp, String.eqb_refl.
  pose proof (savable_returns df last Hs) as Hr. unfold run_save.
  destruct (save_data df last) as [qs o]. cbn [snd fst] in *. subst o.
  reflexivity.
Qed.

End KeyAndGate.

(** ** The further properties on the small runtime *)

Module ExtrasOnSmallRuntime.
Import SmallRuntime Samples MoreSamples.

(** X1 on [no_price_table]. *)
Lemma normalize_df_key_error_witness :
  well_formed no_price_table = true /\
  normalize_df no_price_table = None /\
  apply_changes no_price_table = None.
Proof.
  assert (H : well_formed no_price_table = true) by reflexivity.
  split; [exact H|].
  destruct (normalize_df_key_error no_price_table H) as [[_ H1] [_ H2]].
  split; [apply H1 | apply H2]; reflexivity.
Defined.

(** X2 on [edited_table]. *)
Lemma normalize_df_output_typed_witness :
  normalize_df edited_table = Some edited_normalized /\
  columns edited_normalized = REQUIRED_COLS /\
  List.length (rows edited_normalized) = List.length (rows edited_table) /\
  savable edited_normalized = true.
Proof.
  assert (H : normalize_df edited_table = Some edited_normalized)
    by reflexivity.
  split; [exact H|].
  destruct (normalize_df_output_typed edited_table edited_normalized H)
    as (H1 & H2 & H3 & _).
  split; [exact H1|]. split; [exact H2 | exact H3].
Defined.

(** X4 on [text_date_table], saved over [old_store]. *)
Lemma save_data_raises_after_delete_witness :
  df_empty text_date_table = false /\
  savable text_date_table = false /\
  save_data text_date_table (Some "book.xlsx")
  = ([DeleteNeq "wo" "___never___"], Raised) /\
  table (run_save text_date_table (Some "book.xlsx") old_store)
  = filter (fun r => negb (deleted_by_save r)) (table old_store).
Proof.
  assert (H : df_empty text_date_table = false) by reflexivity.
  assert (H' : savable text_date_table = false) by reflexivity.
  split; [exact H|]. split; [exact H'|].
  exact (proj2 (save_data_raises_after_delete text_date_table
                  (Some "book.xlsx") old_store H) H').
Defined.

(** X5 on the table loaded from [old_store]. *)
Lemma save_data_returns_on_page_tables_witness :
  load_data old_store = Some (old_loaded, VStr "old.xlsx") /\
  snd (save_data old_loaded (Some "book.xlsx")) = Returned.
Proof.
  assert (H : load_data old_store = Some (old_loaded, VStr "old.xlsx"))
    by reflexivity.
  split; [exact H|].
  apply (save_data_returns_on_page_tables old_loaded (Some "book.xlsx")).
  left. exists old_store, (VStr "old.xlsx"). exact H.
Defined.

Lemma old_store_deletable : deletable old_store.
Proof. intros r [<-|[]]. reflexivity. Qed.

(** X6 on [clean_table] saved first and [nan_table] second. *)
Lemma last_save_wins_witness :
  deletable old_store /\ sentinel_free clean_table = true /\
  df_empty nan_table = false /\ savable nan_table = true /\
  exists T,
    load_data (run_save nan_table (Some "second.xlsx")
                 (run_save clean_table (Some "first.xlsx") old_store))
    = Some (T, VStr "second.xlsx") /\
    columns T = REQUIRED_COLS /\
    List.length (rows T) = List.length (rows nan_table).
Proof.
  assert (H2 : sentinel_free clean_table = true) by reflexivity.
  assert (H3 : df_empty nan_table = false) by reflexivity.
  assert (H4 : savable nan_table = true) by reflexivity.
  split; [exact old_store_deletable|]. split; [exact H2|].
  split; [exact H3|]. split; [exact H4|].
  exact (last_save_wins clean_table nan_table (Some "first.xlsx")
           (Some "second.xlsx") old_store old_store_deletable H2 H3 H4).
Defined.

(** X7 on [sentinel_store]. *)
Lemma load_then_save_doubles_spared_rows_witness :
  (forall r, In r (table sentinel_store) -> deleted_by_save r = false) /\
  load_data sentinel_store = Some (sentinel_table, VStr "book.xlsx") /\
  List.length (table (run_save sentinel_table (Some "book.xlsx")
                        sentinel_store)) = 2.
Proof.
  assert (H1 : forall r, In r (table sentinel_store) ->
                         deleted_by_save r = false)
    by (intros r [<-|[]]; reflexivity).
  assert (H2 : load_data sentinel_store
               = Some (sentinel_table, VStr "book.xlsx")) by reflexivity.
  split; [exact H1|]. split; [exact H2|].
  exact (proj1 (load_then_save_doubles_spared_rows sentinel_store
                  sentinel_table (VStr "book.xlsx") (Some "book.xlsx")
                  H1 H2)).
Defined.

(** X8 on [clean_table], whose NA price comes back as NaN. *)
Lemma round_trip_rewrites_missing_prices_witness :
  normalize_df clean_table = Some clean_table /\ deletable old_store /\
  load_data (run_save clean_table (Some "book.xlsx") old_store)
  = Some (settled_table, VStr "book.xlsx").
Proof.
  assert (H : normalize_df clean_table = Some clean_table) by reflexivity.
  split; [exact H|]. split; [exact old_store_deletable|].
  exact (proj1 (round_trip_rewrites_missing_prices
                  (L := SmallRuntimeFacts.laws) clean_table
                  (Some "book.xlsx") old_store H old_store_deletable)).
Defined.

(** X9 and X10 on an Update with a wrong password. *)
Lemma store_written_only_by_update_witness :
  password (press_update "guess") <> correct_password None /\
  store_after (page_run None (press_update "guess") fresh_session old_store)
  = old_store.
Proof.
  assert (H : password (press_update "guess") <> correct_password None)
    by discriminate.
  split; [exact H|].
  apply store_written_only_by_update. right. right. exact H.
Defined.

Lemma wrong_password_changes_nothing_witness :
  apply (press_update "guess") = false /\
  update_btn (press_update "guess") = true /\
  password (press_update "guess") <> correct_password (Some "s3cret") /\
  exists ss0 msgs,
    session_init fresh_session old_store = Some ss0 /\
    page_run (Some "s3cret") (press_update "guess") fresh_session old_store
    = Completed ss0 old_store msgs false /\
    In ErrorPassword msgs /\ ~ In SuccessSaved msgs.
Proof.
  assert (H : password (press_update "guess") <> correct_password (Some "s3cret"))
    by discriminate.
  split; [reflexivity|]. split; [reflexivity|]. split; [exact H|].
  exact (wrong_password_changes_nothing (Some "s3cret") (press_update "guess")
           fresh_session old_store eq_refl eq_refl H).
Defined.

Lemma edited_table_editable : editable edited_table.
Proof. split; reflexivity. Qed.

(** X11 on Apply, Update with the right password, Update with a wrong
    one. *)
Lemma page_runs_never_crash_witness :
  exists df0 last v0 u0 df' u' s',
    session_init fresh_session old_store = Some (full df0 last v0 u0) /\
    page_runs None
      [press_apply; press_update "admin123"; press_update "guess"]
      fresh_session old_store
    = Completed (full df' last (v0 + 1)%Z u') s' [] false /\
    savable df' = true.
Proof.
  apply (page_runs_never_crash None
           [press_apply; press_update "admin123"; press_update "guess"]
           fresh_session old_store).
  - left. reflexivity.
  - intros w [<-|[<-|[<-|[]]]] H; try discriminate H.
    exact edited_table_editable.
  - discriminate.
Defined.

(** X12 on [edited_table], from [old_store]. *)
Lemma apply_update_reload_witness :
  deletable old_store /\
  load_data old_store = Some (old_loaded, VStr "old.xlsx") /\
  apply_changes edited_table = Some edited_applied /\
  exists s',
    page_runs None
      [ mkWidgets edited_table true "" false;
        mkWidgets edited_applied false (correct_password None) true ]
      fresh_session old_store
    = Completed (full edited_applied (label_of (VStr "old.xlsx")) 1%Z false)
        s' [] false /\
    session_init fresh_session s'
    = Some (full (reloaded edited_applied)
              (label_of (saved_label edited_applied
                           (label_of (VStr "old.xlsx")))) 0%Z false).
Proof.
  assert (H2 : load_data old_store = Some (old_loaded, VStr "old.xlsx"))
    by reflexivity.
  assert (H3 : apply_changes edited_table = Some edited_applied)
    by reflexivity.
  split; [exact old_store_deletable|]. split; [exact H2|]. split; [exact H3|].
  exact (apply_update_reload (L := SmallRuntimeFacts.laws) None edited_table
           edited_applied old_loaded (VStr "old.xlsx") old_store
           old_store_deletable H2 H3).
Defined.

(** X13 on [clean_table], saved without a label. *)
Lemma unlabelled_save_shows_no_data_witness :
  deletable old_store /\ df_empty clean_table = false /\
  savable clean_table = true /\ label_or_empty None = "" /\
  exists df,
    page_run None (mkWidgets clean_table false "" false) fresh_session
      (run_save clean_table None old_store)
    = Completed (full df (Some "") 0%Z false)
        (run_save clean_table None old_store) [WarnNoData] false /\
    List.length (rows df) = List.length (rows clean_table) /\ rows df <> [].
Proof.
  split; [exact old_store_deletable|]. split; [reflexivity|].
  split; [reflexivity|]. split; [reflexivity|].
  exact (unlabelled_save_shows_no_data None clean_table None old_store
           old_store_deletable eq_refl eq_refl eq_refl).
Defined.

(** X14 on [empty_row_table]. *)
Lemma missing_wo_row_is_kept_witness :
  editable empty_row_table /\
  exists M,
    apply_changes empty_row_table = Some M /\
    In [VStr "None"; VStr ""; VStr ""; VStr ""; VStr ""; VStr ""; VNaT; VNA]
      (rows M).
Proof.
  assert (H : editable empty_row_table) by (split; reflexivity).
  split; [exact H|].
  destruct (missing_wo_row_is_kept (L := SmallRuntimeFacts.laws)
              empty_row_table H) as (rs & M & Hs & HM & Hk).
  exists M. split; [exact HM|].
  assert (E : rs = rows empty_row_table).
  { assert (Hs' : select_cols REQUIRED_COLS empty_row_table
                  = Some (mkDF REQUIRED_COLS (rows empty_row_table)))
      by reflexivity.
    rewrite Hs' in Hs. injection Hs as <-. reflexivity. }
  subst rs.
  apply (Hk [VNone; VNone; VNone; VNone; VNone; VNone; VNone; VNone]).
  - right. left. reflexivity.
  - reflexivity.
Defined.

(** X15 on the 1001 payloads of [long_table]: the second batch is full. *)
Lemma batches_are_full_but_last_witness :
  1 < List.length (batches (repeat long_payload 1001)) /\
  List.length (nth 1 (batches (repeat long_payload 1001)) []) = 500.
Proof.
  assert (H : 1 < List.length (batches (repeat long_payload 1001))).
  { rewrite batches_length, repeat_length. apply Nat.leb_le. reflexivity. }
  split; [exact H|].
  destruct (batches_are_full_but_last (repeat long_payload 1001) 1 H)
    as (_ & _ & Hfull).
  apply Hfull. rewrite batches_length, repeat_length.
  apply Nat.leb_le. reflexivity.
Defined.

(** X16 on [null_key_row]. *)
Lemma null_key_saved_as_text_witness :
  wo null_key_row = None /\
  exists p,
    to_payload REQUIRED_COLS (Some "book.xlsx")
      (load_row (R := runtime) false null_key_row) = Some p /\
    p_wo p = "None" /\
    wo (store_row p 5) = Some "None" /\
    deleted_by_save (store_row p 5) = true.
Proof.
  split; [reflexivity|].
  exact (null_key_saved_as_text false null_key_row (Some "book.xlsx") 5
           eq_refl).
Defined.

(** X17 on an Update with the default password. *)
Lemma right_password_saves_witness :
  savable edited_applied = true /\
  page_run None (press_update "admin123")
    (full edited_applied (Some "old.xlsx") 1 true) old_store
  = Completed (full edited_applied (Some "old.xlsx") 1 false)
      (run_save edited_applied (Some "old.xlsx") old_store)
      (banners (Some "old.xlsx") true ++ [SuccessSaved]) true.
Proof.
  assert (H : savable edited_applied = true) by reflexivity.
  split; [exact H|].
  exact (right_password_saves None (press_update "admin123") edited_applied
           (Some "old.xlsx") 1 true old_store eq_refl eq_refl eq_refl H).
Defined.

End ExtrasOnSmallRuntime.
